(** * POD Design Studio: the design-asset lifecycle, verified

  A shallow embedding of the lifecycle handlers of [src/App.tsx]
  (generation, bulk generation, background removal, upscaling, remix,
  revert, clear), of the metadata export of [services/apiService.ts] and
  of the upload analysis ([handleImageUpload]) with its local resolution
  check, followed by the properties the specification states about them.  After those come the
  idea prompt ([handleSuggestIdea]), the file names and the archive of the
  downloads, the background-removal endpoint ([api/clipdrop.ts]) with the
  client functions that call it, and the model endpoint ([api/gemini.ts]),
  with further properties read off the code.

  Modelling conventions.
  - A JavaScript string is a Rocq [string] holding its UTF-8 bytes.
  - The remote gateways, [crypto.randomUUID] and [window.confirm] are
    oracles over an abstract [World]; a rejected promise or a thrown
    value is the left injection of a sum.
  - React state is an explicit [AppState] (the upload analysis has a
    state record of its own); a handler is a state-passing
    computation that runs to completion before the next one starts (the
    interleaving of two handlers suspended at an [await] is outside the
    model).  The value of [generatedDesigns] a handler closes over is the
    one it reads when it starts.
  - An oracle always answers: a gateway call that never settles is
    outside the model.
  - The [useEffect] that mirrors the store into [localStorage] and the
    five-second timer that dismisses a message are not modelled. *)

From Stdlib Require Import Ascii String.
From stdpp Require Import base option list strings pretty gmap.

(** ** JavaScript string primitives used by the handlers *)

Module JS.

(** The one-character string holding a double quote. *)
Definition dquote : string := String "034"%char EmptyString.

(** [s.split('\n')]: always at least one piece. *)
Fixpoint split_newline (s : string) : list string :=
  match s with
  | EmptyString => [EmptyString]
  | String c rest =>
      if Ascii.eqb c "010"%char then EmptyString :: split_newline rest
      else match split_newline rest with
           | piece :: pieces => String c piece :: pieces
           | [] => [String c EmptyString]
           end
  end.

(** White space and line terminators of ECMAScript, by UTF-8 encoding
    length.  One byte: U+0009..U+000D and U+0020. *)
Definition isWhiteSpace1 (c : ascii) : bool :=
  let n := nat_of_ascii c in
  ((9 <=? n)%nat && (n <=? 13)%nat) || (n =? 32)%nat.

(** Two bytes: U+00A0. *)
Definition isWhiteSpace2 (c1 c2 : ascii) : bool :=
  (nat_of_ascii c1 =? 194)%nat && (nat_of_ascii c2 =? 160)%nat.

(** Three bytes: U+1680, U+2000..U+200A, U+2028, U+2029, U+202F, U+205F,
    U+3000 and U+FEFF. *)
Definition isWhiteSpace3 (c1 c2 c3 : ascii) : bool :=
  let a := nat_of_ascii c1 in
  let b := nat_of_ascii c2 in
  let c := nat_of_ascii c3 in
  ((a =? 225) && (b =? 154) && (c =? 128))%nat
  || ((a =? 226)%nat && (b =? 128)%nat
      && (((128 <=? c)%nat && (c <=? 138)%nat)
          || (c =? 168)%nat || (c =? 169)%nat || (c =? 175)%nat))
  || ((a =? 226) && (b =? 129) && (c =? 159))%nat
  || ((a =? 227) && (b =? 128) && (c =? 128))%nat
  || ((a =? 239) && (b =? 187) && (c =? 191))%nat.

(** Drops leading white space.  With [backwards] the bytes are those of
    the reversed string, so each encoding is read last byte first. *)
Fixpoint dropWhiteSpace (backwards : bool) (l : list ascii) : list ascii :=
  match l with
  | [] => []
  | c1 :: l1 =>
      if isWhiteSpace1 c1 then dropWhiteSpace backwards l1
      else
        match l1 with
        | [] => l
        | c2 :: l2 =>
            if (if backwards then isWhiteSpace2 c2 c1 else isWhiteSpace2 c1 c2)
            then dropWhiteSpace backwards l2
            else
              match l2 with
              | [] => l
              | c3 :: l3 =>
                  if (if backwards then isWhiteSpace3 c3 c2 c1
                      else isWhiteSpace3 c1 c2 c3)
                  then dropWhiteSpace backwards l3
                  else l
              end
        end
  end.

(** [s.trim()]. *)
Definition trim (s : string) : string :=
  string_of_list_ascii
    (rev (dropWhiteSpace true
            (rev (dropWhiteSpace false (list_ascii_of_string s))))).

(** [Boolean(s)] for a string: the empty string is the only falsy one. *)
Definition truthy (s : string) : bool :=
  match s with EmptyString => false | String _ _ => true end.

End JS.

(** ** Data model ([types.ts]) *)

Record Metadata := {
Title : string;
Description : string;
Tags : string;
Type_ : string;
Color : string
}.

Record DesignData := {
id : string;
metadata : Metadata;
imageUrl : string;
originalImageUrl : string;
originalIdea : string;
bgRemoved : bool;
upscaled : bool
}.

(** [Partial<DesignData>]: every key may be absent. *)
Record PartialDesignData := {
p_id : option string;
p_metadata : option Metadata;
p_imageUrl : option string;
p_originalImageUrl : option string;
p_originalIdea : option string;
p_bgRemoved : option bool;
p_upscaled : option bool
}.

(** The object spread [{ ...d, ...updates }]. *)
Definition spread (d : DesignData) (updates : PartialDesignData) : DesignData :=
{| id := default (id d) (p_id updates);
   metadata := default (metadata d) (p_metadata updates);
   imageUrl := default (imageUrl d) (p_imageUrl updates);
   originalImageUrl := default (originalImageUrl d) (p_originalImageUrl updates);
   originalIdea := default (originalIdea d) (p_originalIdea updates);
   bgRemoved := default (bgRemoved d) (p_bgRemoved updates);
   upscaled := default (upscaled d) (p_upscaled updates) |}.

Record Message := {
text : string;
isError : bool
}.

Record PrintReportItem := {
status : string;
details : string;
suggestion : option string
}.

(** The part of the component state of [App] the lifecycle handlers touch. *)
Record AppState := {
ideaPrompt : string;
generatedDesigns : list DesignData;
isLoading : bool;
loadingMessage : string;
message : option Message
}.

(** A value caught by [catch (error)]: an [Error] with its message, or
  anything else. *)
Inductive Thrown :=
| ErrorObject (error_message : string)
| OtherValue.

(** What [api.generateMetadataAndPrompt] resolves to. *)
Record PromptPackage := {
image_prompt : string;
package_metadata : Metadata
}.

(** The collaborators of [App]: the module [services/apiService], the
  [FileReader] behind [blobToDataUrl], [crypto.randomUUID] and
  [window.confirm]. *)
Record Api (World Blob : Type) := {
generateMetadataAndPrompt : string -> World -> (Thrown + PromptPackage) * World;
generateImageFromPrompt : string -> World -> (Thrown + string) * World;
removeBackground : string -> World -> (Thrown + Blob) * World;
upscaleImage : string -> World -> (Thrown + Blob) * World;
blobToDataUrl : Blob -> World -> (Thrown + string) * World;
randomUUID : World -> string * World;
confirm : string -> World -> bool * World
}.

Arguments generateMetadataAndPrompt {World Blob} _ _ _.
Arguments generateImageFromPrompt {World Blob} _ _ _.
Arguments removeBackground {World Blob} _ _ _.
Arguments upscaleImage {World Blob} _ _ _.
Arguments blobToDataUrl {World Blob} _ _ _.
Arguments randomUUID {World Blob} _ _.
Arguments confirm {World Blob} _ _ _.

(** ** Handlers as state-passing computations *)

Section Lifecycle.

Context {World Blob : Type}.
Variable api : Api World Blob.

(** A handler step: it may read and write the world and the component
    state, and it either returns a value or throws. *)
Definition Task (A : Type) : Type :=
  World -> AppState -> (Thrown + A) * World * AppState.

Definition ret {A} (a : A) : Task A :=
  fun w s => (inr a, w, s).

Definition bind {A B} (m : Task A) (k : A -> Task B) : Task B :=
  fun w s =>
    match m w s with
    | (inr a, w', s') => k a w' s'
    | (inl e, w', s') => (inl e, w', s')
    end.

(** [try { body } catch (error) { handler }]. *)
Definition tryCatch {A} (body : Task A) (handler : Thrown -> Task A) : Task A :=
  fun w s =>
    match body w s with
    | (inr a, w', s') => (inr a, w', s')
    | (inl e, w', s') => handler e w' s'
    end.

(** [await] of a collaborator that may reject. *)
Definition await {A} (call : World -> (Thrown + A) * World) : Task A :=
  fun w s => let (r, w') := call w in (r, w', s).

(** A collaborator that cannot fail. *)
Definition perform {A} (call : World -> A * World) : Task A :=
  fun w s => let (a, w') := call w in (inr a, w', s).

Definition getState : Task AppState :=
  fun w s => (inr s, w, s).

Definition setState (f : AppState -> AppState) : Task unit :=
  fun w s => (inr tt, w, f s).

Notation "x <- m ;; k" := (bind m (fun x => k))
  (at level 100, m at next level, right associativity).
Notation "m ;;; k" := (bind m (fun _ => k))
  (at level 100, right associativity).

(** The state setters of [useState]. *)
Definition setGeneratedDesigns (designs : list DesignData) : Task unit :=
  setState (fun s =>
    {| ideaPrompt := ideaPrompt s; generatedDesigns := designs;
       isLoading := isLoading s; loadingMessage := loadingMessage s;
       message := message s |}).

(** [setGeneratedDesigns(prev => f(prev))]. *)
Definition updateGeneratedDesigns (f : list DesignData -> list DesignData) : Task unit :=
  setState (fun s =>
    {| ideaPrompt := ideaPrompt s; generatedDesigns := f (generatedDesigns s);
       isLoading := isLoading s; loadingMessage := loadingMessage s;
       message := message s |}).

Definition setIsLoading (b : bool) : Task unit :=
  setState (fun s =>
    {| ideaPrompt := ideaPrompt s; generatedDesigns := generatedDesigns s;
       isLoading := b; loadingMessage := loadingMessage s;
       message := message s |}).

Definition setLoadingMessage (m : string) : Task unit :=
  setState (fun s =>
    {| ideaPrompt := ideaPrompt s; generatedDesigns := generatedDesigns s;
       isLoading := isLoading s; loadingMessage := m;
       message := message s |}).

Definition setMessage (m : option Message) : Task unit :=
  setState (fun s =>
    {| ideaPrompt := ideaPrompt s; generatedDesigns := generatedDesigns s;
       isLoading := isLoading s; loadingMessage := loadingMessage s;
       message := m |}).

Definition showMessage (text : string) (isError : bool) : Task unit :=
  setMessage (Some {| text := text; isError := isError |}).

(** [error instanceof Error ? error.message : fallback]. *)
Definition messageOf (error : Thrown) (fallback : string) : string :=
  match error with
  | ErrorObject m => m
  | OtherValue => fallback
  end.

(** [designs.find(d => d.id === id)]. *)
Definition find (i : string) (designs : list DesignData) : option DesignData :=
  snd <$> list_find (fun d => id d = i) designs.

(** [designs.findIndex(d => d.id === id)], [-1] when there is none. *)
Definition findIndex (i : string) (designs : list DesignData) : Z :=
  match list_find (fun d => id d = i) designs with
  | Some (n, _) => Z.of_nat n
  | None => (-1)%Z
  end.

Definition generateSingleDesign (idea : string) : Task (option DesignData) :=
  tryCatch
    (package <- await (generateMetadataAndPrompt api idea) ;;
     imageUrl <- await (generateImageFromPrompt api (image_prompt package)) ;;
     uuid <- perform (randomUUID api) ;;
     ret (Some {| id := uuid;
                  metadata := package_metadata package;
                  imageUrl := imageUrl;
                  originalImageUrl := imageUrl;
                  originalIdea := idea;
                  bgRemoved := false;
                  upscaled := false |}))
    (fun error =>
       showMessage ("Failed to generate design for " +:+ JS.dquote +:+ idea
                    +:+ JS.dquote +:+ ". See console.") true ;;;
       ret None).

(** The ideas of the text area: one per line, trimmed, blanks dropped. *)
Definition parseIdeas (prompt : string) : list string :=
  List.filter JS.truthy (JS.trim <$> JS.split_newline prompt).

(** The [for] loop of [handleBulkGeneration], entered at index [i] with
    [ideas.slice(i)] still to do and [newDesigns] collected so far. *)
Fixpoint bulkLoop (total i : nat) (remaining : list string)
    (newDesigns : list DesignData) : Task unit :=
  match remaining with
  | [] => ret tt
  | idea :: remaining' =>
      setLoadingMessage ("Generating design " +:+ pretty (i + 1)%nat +:+ " of "
                         +:+ pretty total +:+ ": " +:+ JS.dquote +:+ idea
                         +:+ JS.dquote) ;;;
      design <- generateSingleDesign idea ;;
      match design with
      | Some d =>
          setGeneratedDesigns (newDesigns ++ [d]) ;;;
          bulkLoop total (S i) remaining' (newDesigns ++ [d])
      | None => bulkLoop total (S i) remaining' newDesigns
      end
  end.

Definition handleBulkGeneration : Task unit :=
  s <- getState ;;
  let ideas := parseIdeas (ideaPrompt s) in
  if (length ideas =? 0)%nat then
    showMessage "Please enter at least one design idea." true
  else
    setIsLoading true ;;;
    setMessage None ;;;
    setGeneratedDesigns [] ;;;
    bulkLoop (length ideas) 0 ideas [] ;;;
    setIsLoading false.

(** [designs.map(d => d.id === id ? { ...d, ...updates } : d)]. *)
Definition applyUpdates (i : string) (updates : PartialDesignData)
    (designs : list DesignData) : list DesignData :=
  (fun d => if decide (id d = i) then spread d updates else d) <$> designs.

Definition updateDesign (i : string) (updates : PartialDesignData) : Task unit :=
  updateGeneratedDesigns (applyUpdates i updates).

Definition handleRemoveBackground (i : string) : Task unit :=
  s <- getState ;;
  match find i (generatedDesigns s) with
  | None => ret tt
  | Some design =>
      if bgRemoved design then ret tt
      else
        tryCatch
          (blob <- await (removeBackground api (imageUrl design)) ;;
           newImageUrl <- await (blobToDataUrl api blob) ;;
           updateDesign i {| p_id := None; p_metadata := None;
                             p_imageUrl := Some newImageUrl;
                             p_originalImageUrl := None; p_originalIdea := None;
                             p_bgRemoved := Some true; p_upscaled := None |} ;;;
           showMessage ("Background removed for design #"
                        +:+ pretty (findIndex i (generatedDesigns s) + 1)%Z
                        +:+ "!") false)
          (fun error => showMessage (messageOf error "BG removal failed.") true)
  end.

Definition handleUpscale (i : string) : Task unit :=
  s <- getState ;;
  match find i (generatedDesigns s) with
  | None => ret tt
  | Some design =>
      if upscaled design then ret tt
      else
        tryCatch
          (blob <- await (upscaleImage api (imageUrl design)) ;;
           newImageUrl <- await (blobToDataUrl api blob) ;;
           updateDesign i {| p_id := None; p_metadata := None;
                             p_imageUrl := Some newImageUrl;
                             p_originalImageUrl := None; p_originalIdea := None;
                             p_bgRemoved := None; p_upscaled := Some true |} ;;;
           showMessage ("Design #"
                        +:+ pretty (findIndex i (generatedDesigns s) + 1)%Z
                        +:+ " upscaled!") false)
          (fun error => showMessage (messageOf error "Upscaling failed.") true)
  end.

Definition handleRemix (i : string) : Task unit :=
  s <- getState ;;
  match find i (generatedDesigns s) with
  | None => ret tt
  | Some design =>
      showMessage ("Remixing design: " +:+ JS.dquote +:+ originalIdea design
                   +:+ JS.dquote +:+ "...") false ;;;
      newDesign <- generateSingleDesign (originalIdea design) ;;
      match newDesign with
      | Some d =>
          updateGeneratedDesigns (fun prev => prev ++ [d]) ;;;
          showMessage "Remix successful! New design added." false
      | None => ret tt
      end
  end.

Definition handleRevert (i : string) : Task unit :=
  s <- getState ;;
  match find i (generatedDesigns s) with
  | None => ret tt
  | Some design =>
      if String.eqb (imageUrl design) (originalImageUrl design) then ret tt
      else
        updateDesign i {| p_id := None; p_metadata := None;
                          p_imageUrl := Some (originalImageUrl design);
                          p_originalImageUrl := None; p_originalIdea := None;
                          p_bgRemoved := Some false; p_upscaled := Some false |} ;;;
        showMessage ("Design #"
                     +:+ pretty (findIndex i (generatedDesigns s) + 1)%Z
                     +:+ " reverted.") false
  end.

Definition handleGenerateFromIdea (description : string) : Task unit :=
  setIsLoading true ;;;
  setLoadingMessage ("Generating: " +:+ JS.dquote +:+ description +:+ JS.dquote) ;;;
  newDesign <- generateSingleDesign description ;;
  match newDesign with
  | Some d =>
      updateGeneratedDesigns (fun prev => prev ++ [d]) ;;;
      showMessage "New design generated from suggestion!" false ;;;
      setIsLoading false
  | None => setIsLoading false
  end.

Definition handleClearSession : Task unit :=
  confirmed <- perform (confirm api "Are you sure you want to clear all generated designs? This action cannot be undone.") ;;
  if (confirmed : bool) then
    setGeneratedDesigns [] ;;;
    showMessage "Session cleared successfully." false
  else ret tt.

(** The lifecycle commands the presentation layer can issue. *)
Inductive Command :=
| GenerateFromIdea (description : string)
| BulkGeneration
| RemoveBackground (i : string)
| Upscale (i : string)
| Remix (i : string)
| Revert (i : string)
| ClearSession.

Definition handle (c : Command) : Task unit :=
  match c with
  | GenerateFromIdea description => handleGenerateFromIdea description
  | BulkGeneration => handleBulkGeneration
  | RemoveBackground i => handleRemoveBackground i
  | Upscale i => handleUpscale i
  | Remix i => handleRemix i
  | Revert i => handleRevert i
  | ClearSession => handleClearSession
  end.

(** The store a handler leaves behind. *)
Definition storeAfter {A} (t : Task A) (w : World) (s : AppState) : list DesignData :=
  generatedDesigns (t w s).2.

(** Handlers issued one after the other. *)
Fixpoint handleAll (cs : list Command) : Task unit :=
  match cs with
  | [] => ret tt
  | c :: cs' => tryCatch (handle c) (fun _ => ret tt) ;;; handleAll cs'
  end.

End Lifecycle.

Arguments Task : clear implicits.

(** ** Metadata export ([downloadMetadataAsXLSX] of [services/apiService.ts]) *)

(** A row object handed to [XLSX.utils.json_to_sheet]: its keys in
  insertion order, each with its cell. *)
Definition Row := list (string * string).

(** The columns of a row, in order. *)
Definition columns (r : Row) : list string := r.*1.

(** The cell under a column, when the row has it. *)
Fixpoint cell (column : string) (r : Row) : option string :=
match r with
| [] => None
| (k, v) :: r' => if String.eqb k column then Some v else cell column r'
end.

(** [const worksheetData = designs.map(d => ({ Title: ..., ... }))]. *)
Definition worksheetData (designs : list DesignData) : list Row :=
(fun d =>
   [("Title", Title (metadata d));
    ("Description", Description (metadata d));
    ("Tags", Tags (metadata d));
    ("Type", Type_ (metadata d));
    ("Color", Color (metadata d));
    ("OriginalIdea", originalIdea d)]) <$> designs.

(** The other service module of the repository, which calls the model
    directly from the browser and which [App] does not import, has an
    export of its own with other columns. *)
Module DirectService.

(** The UTF-16 code units of a title, read off its UTF-8 bytes, after
    [replace(/[^a-z0-9]/gi, '_').toLowerCase()]: a letter or digit stays
    (in lower case); any other code unit becomes an underscore, and a
    character outside the basic plane has two of them. *)
Fixpoint slug (title : string) : string :=
  match title with
  | EmptyString => EmptyString
  | String c rest =>
      let n := nat_of_ascii c in
      if ((48 <=? n) && (n <=? 57) || (97 <=? n) && (n <=? 122))%nat
      then String c (slug rest)
      else if ((65 <=? n) && (n <=? 90))%nat
      then String (ascii_of_nat (n + 32)) (slug rest)
      else if (n <? 128)%nat then String "_"%char (slug rest)
      else if (n <? 192)%nat then slug rest
      else if (n <? 240)%nat then String "_"%char (slug rest)
      else String "_"%char (String "_"%char (slug rest))
  end.

(** [slug || `design_${index}`]. *)
Definition fileTitle (title : string) (index : nat) : string :=
  if JS.truthy (slug title) then slug title else "design_" +:+ pretty index.

(** [const data = designs.map((item, index) => ({ ... }))]. *)
Definition data (designs : list Metadata) : list Row :=
  imap (fun index item =>
          [("Image Path", "C:\Downloads\" +:+ fileTitle (Title item) index +:+ ".png");
           ("Language", "EN");
           ("Title", Title item);
           ("Description", Description item);
           ("Tags", Tags item);
           ("Type", Type_ item);
           ("Color", Color item)]) designs.

End DirectService.

(** ** Local resolution check ([handleImageUpload], the block that builds
  [finalReport]) *)


Definition statusPass : string := "✅".
Definition statusWarn : string := "⚠️".



(** ** The upload analysis ([handleImageUpload])

  The handler reads the file, decodes the image to learn its natural
  size, asks the gateway for the two analyses and only then builds the
  report.  An image that never finishes loading leaves the handler
  waiting for ever; that is not modelled. *)

Module Upload.

Section Handler.

Context {World File Inspiration : Type}.

(** [AnalysisResult] of [types.ts]; the print report is the object it is
    at run time, its entries under their keys. *)
Record AnalysisResult := {
  printReport : option (gmap string PrintReportItem);
  inspiration : option Inspiration;
  uploadedImage : option string
}.

(** The part of the component state of [App] the handler touches. *)
Record State := {
  isAnalyzing : bool;
  analysisResult : AnalysisResult;
  message : option Message
}.

(** [blobToBase64(file)], [file.type], [URL.createObjectURL(file)], and
    the natural width and height the browser finds when it has loaded the
    image behind a URL. *)
Variable blobToBase64 : File -> World -> (Thrown + string) * World.
Variable fileType : File -> string.
Variable createObjectURL : File -> World -> string * World.
Variable loadImage : string -> World -> (N * N) * World.

(** The two analyses of the service module. *)
Variable analyzeImageForInspiration :
  string -> string -> World -> (Thrown + Inspiration) * World.
Variable analyzeImageForPrint :
  string -> string -> N -> N -> World
  -> (Thrown + gmap string PrintReportItem) * World.

(** Whether, of two calls that both reject, the first one rejects
    first. *)
Variable firstRejectsFirst : World -> bool.




Definition setMessage (m : option Message) (s : State) : State :=
  {| isAnalyzing := isAnalyzing s; analysisResult := analysisResult s; message := m |}.

Definition showMessage (text : string) (isError : bool) : State -> State :=
  setMessage (Some {| text := text; isError := isError |}).



End Handler.

Arguments AnalysisResult : clear implicits.
Arguments State : clear implicits.

End Upload.

(** ** A scripted gateway for concrete runs *)

Module Script.

(** The world counts the identifiers handed out so far. *)
Definition World := nat.
Definition Blob := string.

Definition sampleMetadata (idea : string) : Metadata :=
  {| Title := idea; Description := "A design"; Tags := "tee";
     Type_ := "T-Shirt"; Color := "Black" |}.

(** Generation is refused for the idea [broken]; background removal hands
    back [echo] of its input, upscaling appends a marker; the user
    answers [yes] to the confirmation dialog. *)
Definition api (echo : string -> string) (yes : bool) : Api World Blob :=
  {| generateMetadataAndPrompt := fun idea w =>
       if String.eqb idea "broken"
       then (inl (ErrorObject "Request failed with status 500"), w)
       else (inr {| image_prompt := "vector art of " +:+ idea;
                    package_metadata := sampleMetadata idea |}, w);
     generateImageFromPrompt := fun prompt w =>
       (inr ("data:image/png;base64," +:+ prompt), w);
     removeBackground := fun url w => (inr (echo url), w);
     upscaleImage := fun url w => (inr (url +:+ "+2x"), w);
     blobToDataUrl := fun blob w => (inr blob, w);
     randomUUID := fun w => ("uuid-" +:+ pretty w, S w);
     confirm := fun _ w => (yes, w) |}.

Definition cutout (url : string) : string := url +:+ "+cutout".
Definition unchanged (url : string) : string := url.

Definition design0 : DesignData :=
  {| id := "d0"; metadata := sampleMetadata "a cat";
     imageUrl := "data:image/png;base64,AAAA";
     originalImageUrl := "data:image/png;base64,AAAA";
     originalIdea := "a cat"; bgRemoved := false; upscaled := false |}.

Definition design1 : DesignData :=
  {| id := "d1"; metadata := sampleMetadata "a dog";
     imageUrl := "data:image/png;base64,BBBB+cutout";
     originalImageUrl := "data:image/png;base64,BBBB";
     originalIdea := "a dog"; bgRemoved := true; upscaled := false |}.

Definition state (prompt : string) (designs : list DesignData) : AppState :=
  {| ideaPrompt := prompt; generatedDesigns := designs; isLoading := false;
     loadingMessage := ""; message := None |}.

(** A store of two designs, the second with its background removed. *)
Definition store2 : AppState := state "" [design0; design1].

(** A text area with three ideas, a blank line and stray white space;
    the gateway refuses the second idea. *)
Definition batch : AppState := state " a cat 
broken

   a dog  " [design1].



End Script.

(** ** The gateways' side of a handler

  The hypotheses of the properties below speak about what the gateways
  answered, so the calls a handler makes are named here on their own. *)

Section Outcomes.

Context {World Blob : Type}.
Variable api : Api World Blob.

(** The calls inside the [try] block of [generateSingleDesign], in order,
    and the record the block returns when none of them fails. *)
Definition generationAttempt (idea : string) (w : World)
    : (Thrown + DesignData) * World :=
  match generateMetadataAndPrompt api idea w with
  | (inl e, w1) => (inl e, w1)
  | (inr package, w1) =>
      match generateImageFromPrompt api (image_prompt package) w1 with
      | (inl e, w2) => (inl e, w2)
      | (inr url, w2) =>
          let (uuid, w3) := randomUUID api w2 in
          (inr {| id := uuid; metadata := package_metadata package;
                  imageUrl := url; originalImageUrl := url;
                  originalIdea := idea; bgRemoved := false;
                  upscaled := false |}, w3)
      end
  end.

(** The attempts for a list of ideas, one after the other: the world
    the first attempt leaves is the one the second starts from. *)
Fixpoint attempts (ideas : list string) (w : World) : list (Thrown + DesignData) :=
  match ideas with
  | [] => []
  | idea :: ideas' =>
      let (r, w') := generationAttempt idea w in r :: attempts ideas' w'
  end.

Definition successes (rs : list (Thrown + DesignData)) : list DesignData :=
  omap (fun r => match r with inr d => Some d | inl _ => None end) rs.

(** The two calls inside the [try] block of a transform: the gateway,
    then the conversion of its blob to a data URL. *)
Definition transformAttempt (call : string -> World -> (Thrown + Blob) * World)
    (url : string) (w : World) : (Thrown + string) * World :=
  match call url w with
  | (inl e, w1) => (inl e, w1)
  | (inr blob, w1) => blobToDataUrl api blob w1
  end.

(** The command reaches a gateway and the gateway fails. *)
Definition gatewayFails (c : Command) (w : World) (s : AppState) : Prop :=
  match c with
  | RemoveBackground i =>
      exists d e, find i (generatedDesigns s) = Some d /\ bgRemoved d = false
        /\ (transformAttempt (removeBackground api) (imageUrl d) w).1 = inl e
  | Upscale i =>
      exists d e, find i (generatedDesigns s) = Some d /\ upscaled d = false
        /\ (transformAttempt (upscaleImage api) (imageUrl d) w).1 = inl e
  | Remix i =>
      exists d e, find i (generatedDesigns s) = Some d
        /\ (generationAttempt (originalIdea d) w).1 = inl e
  | GenerateFromIdea description =>
      exists e, (generationAttempt description w).1 = inl e
  | BulkGeneration | Revert _ | ClearSession => False
  end.

(** The fields of a Design the data model declares immutable. *)
Definition immutablePart (d : DesignData) : string * string * string :=
  (id d, originalImageUrl d, originalIdea d).

(** Commands that neither start a new batch nor clear the session. *)
Definition keepsRecords (c : Command) : bool :=
  match c with
  | BulkGeneration | ClearSession => false
  | _ => true
  end.

(** The two image transforms. *)
Definition isTransform (c : Command) : bool :=
  match c with
  | RemoveBackground _ | Upscale _ => true
  | _ => false
  end.

End Outcomes.

(** ** The idea prompt ([handleSuggestIdea]) *)

Module Text.

(** The string holding one line feed, ['\n']. *)
Definition newline : string := String "010"%char EmptyString.

(** The bytes of a string. *)
Definition bytes (s : string) : list ascii := list_ascii_of_string s.

(** The ideas written one per line, each followed by a line feed. *)
Definition unlines (ideas : list string) : string :=
  foldr (fun idea rest => idea +:+ newline +:+ rest) EmptyString ideas.

End Text.

Section Suggestion.

Context {World : Type}.

(** [api.suggestIdea] of the service module.  A missing text is the empty
    string here: the handler treats both alike. *)
Variable suggestIdea : World -> (Thrown + string) * World.

(** [throw value]. *)
Definition throw {A} (value : Thrown) : Task World A :=
  fun w s => (inl value, w, s).

(** [try { body } finally { cleanup }]: the cleanup runs on both exits and
    the exit of the body is kept unless the cleanup throws. *)
Definition tryFinally {A} (body : Task World A) (cleanup : Task World unit)
    : Task World A :=
  fun w s =>
    match body w s with
    | (r, w', s') =>
        match cleanup w' s' with
        | (inr _, w'', s'') => (r, w'', s'')
        | (inl e, w'', s'') => (inl e, w'', s'')
        end
    end.

(** [setIdeaPrompt(prev => f(prev))]. *)
Definition updateIdeaPrompt (f : string -> string) : Task World unit :=
  setState (fun s =>
    {| ideaPrompt := f (ideaPrompt s); generatedDesigns := generatedDesigns s;
       isLoading := isLoading s; loadingMessage := loadingMessage s;
       message := message s |}).

(** [(prev ? prev + '\n' : '') + idea]. *)
Definition appendIdea (idea prev : string) : string :=
  (if JS.truthy prev then prev +:+ Text.newline else EmptyString) +:+ idea.

Definition handleSuggestIdea : Task World unit :=
  bind (setIsLoading true) (fun _ =>
  bind (setLoadingMessage "Getting an idea from the AI...") (fun _ =>
  tryFinally
    (tryCatch
       (bind (await suggestIdea) (fun idea =>
          if JS.truthy idea then updateIdeaPrompt (appendIdea idea)
          else throw (ErrorObject "Received an empty idea.")))
       (fun error =>
          showMessage (messageOf error "An unknown error occurred.") true))
    (setIsLoading false))).

End Suggestion.

(** ** File names of the downloads *)

Module Files.

(** The name [downloadAllImagesAsZip] of the imported service module gives
    the entry of the design at position [index]. *)
Definition archiveEntry (design : DesignData) (index : nat) : string :=
  (if JS.truthy (DirectService.slug (Title (metadata design)))
   then DirectService.slug (Title (metadata design))
   else "design_" +:+ pretty (index + 1)%nat) +:+ ".png".

(** The characters a slug is made of: lower-case letters, digits and the
    underscore. *)
Definition slugChar (c : ascii) : bool :=
  let n := nat_of_ascii c in
  ((48 <=? n) && (n <=? 57) || (97 <=? n) && (n <=? 122) || (n =? 95))%nat.

End Files.

(** ** The archive of the direct service ([downloadAllImagesAsZip], the
    sequential one) *)

Section Archive.

Context {World Blob Fetched : Type}.

(** [fetch(url)] and [response.blob()]. *)
Variable fetch : string -> World -> (Thrown + Fetched) * World.
Variable blobOf : Fetched -> World -> (Thrown + Blob) * World.

(** The [for] loop, entered at index [i] with [designs.slice(i)] still to
    pack; [zip.file(name, blob)] replaces an entry of the same name.  A
    rejected [fetch] or [blob()] is not caught. *)
Fixpoint packLoop (i : nat) (remaining : list (string * Metadata))
    (zip : gmap string Blob) (w : World) : (Thrown + gmap string Blob) * World :=
  match remaining with
  | [] => (inr zip, w)
  | (imageUrl, metadata) :: remaining' =>
      match fetch imageUrl w with
      | (inl e, w1) => (inl e, w1)
      | (inr response, w1) =>
          match blobOf response w1 with
          | (inl e, w2) => (inl e, w2)
          | (inr blob, w2) =>
              packLoop (S i) remaining'
                (<[DirectService.fileTitle (Title metadata) i +:+ ".png" := blob]> zip)
                w2
          end
      end
  end.

(** The archive handed to [zip.generateAsync]. *)
Definition pack (designs : list (string * Metadata)) (w : World)
    : (Thrown + gmap string Blob) * World :=
  packLoop 0 designs ∅ w.

(** The images of the designs, fetched one after the other as the loop
    does, without the packing. *)
Fixpoint fetchAll (remaining : list (string * Metadata)) (w : World)
    : (Thrown + list Blob) * World :=
  match remaining with
  | [] => (inr [], w)
  | (imageUrl, _) :: remaining' =>
      match fetch imageUrl w with
      | (inl e, w1) => (inl e, w1)
      | (inr response, w1) =>
          match blobOf response w1 with
          | (inl e, w2) => (inl e, w2)
          | (inr blob, w2) =>
              match fetchAll remaining' w2 with
              | (inl e, w3) => (inl e, w3)
              | (inr blobs, w3) => (inr (blob :: blobs), w3)
              end
          end
      end
  end.

(** The entry names the loop writes, in order. *)
Definition entryNames (designs : list (string * Metadata)) : list string :=
  imap (fun i design => DirectService.fileTitle (Title design.2) i +:+ ".png") designs.

End Archive.

(** ** Relations used to state what handlers keep *)

(** Two records of the same design: same id, metadata, original image and
    idea; the current image and the flags may differ. *)
Definition sameIdentity (x y : DesignData) : Prop :=
  id y = id x /\ metadata y = metadata x
  /\ originalImageUrl y = originalImageUrl x /\ originalIdea y = originalIdea x.

(** A design as generation leaves it: showing its original image, with no
    transform applied. *)
Definition pristine (d : DesignData) : Prop :=
  imageUrl d = originalImageUrl d /\ bgRemoved d = false /\ upscaled d = false.

(** ** Background removal across the wire ([api/clipdrop.ts] and the
    functions of the imported service module that call it) *)

Module Wire.

(** [s.split(sep)] for a one-character separator. *)
Fixpoint split (sep : ascii) (s : string) : list string :=
  match s with
  | EmptyString => [EmptyString]
  | String c rest =>
      if Ascii.eqb c sep then EmptyString :: split sep rest
      else match split sep rest with
           | piece :: pieces => String c piece :: pieces
           | [] => [String c EmptyString]
           end
  end.

(** A string used as a condition: [undefined] and the empty string are
    falsy. *)
Definition present (o : option string) : bool :=
  match o with
  | Some s => JS.truthy s
  | None => false
  end.

(** [a || b] on strings that may be [undefined]. *)
Definition orElse (o : option string) (fallback : string) : string :=
  match o with
  | Some s => if JS.truthy s then s else fallback
  | None => fallback
  end.

(** The JSON bodies exchanged with the handler: an object with an optional
    [error] and an optional [imageBase64], both strings. *)
Record Body := {
  error : option string;
  imageBase64 : option string
}.

Definition errorBody (m : string) : Body :=
  {| error := Some m; imageBase64 := None |}.

Definition imageBody (b : string) : Body :=
  {| error := None; imageBase64 := Some b |}.

(** The request as the handler reads it: [req.method] and
    [req.body.payload.imageUrl].  [payload] is [None] when [req.body] or
    its [payload] is missing, and holds [None] when the payload has no
    [imageUrl]. *)
Record Request := {
  method : string;
  payload : option (option string)
}.

(** What the handler does with a request: it answers, or the [TypeError]
    of reading the payload of a body that has none escapes it. *)
Inductive Reply :=
| Responded (code : nat) (body : Body)
| Unhandled.

(** What [clipdropResponse.json()] settles to, as far as the handler looks:
    a rejection, [null], or a value with or without an [error] string. *)
Inductive UpstreamJson :=
| NotJson
| NullJson
| ValueJson (upstreamError : option string).

(** [response.ok]. *)
Definition ok (code : nat) : bool := ((200 <=? code) && (code <=? 299))%nat.

Section Server.

Context {World Buffer : Type}.

Record Upstream := {
  upstreamCode : nat;
  upstreamJson : UpstreamJson;
  arrayBuffer : Thrown + Buffer
}.

(** [Buffer.from(s, 'base64')] and [buffer.toString('base64')]. *)
Variable fromBase64 : string -> Buffer.
Variable toBase64 : Buffer -> string.

(** The [fetch] of the Clipdrop endpoint with the key and the image. *)
Variable clipdrop : string -> Buffer -> World -> (Thrown + Upstream) * World.

(** The [TypeError] raised by reading a property of [null]. *)
Variable nullAccess : Thrown.

Definition dataUrlToBuffer (dataUrl : string) : Thrown + Buffer :=
  match split ","%char dataUrl !! 1%nat with
  | Some base64 =>
      if JS.truthy base64 then inr (fromBase64 base64)
      else inl (ErrorObject "Invalid data URL")
  | None => inl (ErrorObject "Invalid data URL")
  end.

(** The [catch] block of the handler. *)
Definition internalError (thrown : Thrown) : Reply :=
  Responded 500
    (errorBody (match thrown with
                | ErrorObject m => m
                | OtherValue => "An internal server error occurred."
                end)).

Definition handler (req : Request) (CLIPDROP_API_KEY : option string) (w : World)
    : Reply * World :=
  if negb (String.eqb (method req) "POST")
  then (Responded 405 (errorBody "Method Not Allowed"), w)
  else
    match payload req with
    | None => (Unhandled, w)
    | Some imageUrl =>
        if negb (present CLIPDROP_API_KEY)
        then (Responded 500
                (errorBody "Clipdrop API key not configured on the server."), w)
        else if negb (present imageUrl)
        then (Responded 400 (errorBody "imageUrl is required"), w)
        else
          match dataUrlToBuffer (default EmptyString imageUrl) with
          | inl thrown => (internalError thrown, w)
          | inr imageBuffer =>
              match clipdrop (default EmptyString CLIPDROP_API_KEY) imageBuffer w with
              | (inl thrown, w1) => (internalError thrown, w1)
              | (inr response, w1) =>
                  if negb (ok (upstreamCode response))
                  then
                    match upstreamJson response with
                    | NotJson =>
                        (Responded (upstreamCode response)
                           (errorBody "Unknown Clipdrop API error"), w1)
                    | NullJson => (internalError nullAccess, w1)
                    | ValueJson e =>
                        (Responded (upstreamCode response)
                           (errorBody (orElse e "Failed to remove background.")), w1)
                    end
                  else
                    match arrayBuffer response with
                    | inl thrown => (internalError thrown, w1)
                    | inr resultBuffer =>
                        (Responded 200 (imageBody (toBase64 resultBuffer)), w1)
                    end
              end
          end
    end.

End Server.

Arguments Upstream : clear implicits.

Section Client.

Context {World Blob Fetched : Type}.

(** A response as the browser receives it: [response.status] and what
    [response.json()] settles to: a rejection when the body is not JSON,
    [None] when it is the JSON [null], and otherwise the value, of which
    the service module reads [error] and [imageBase64]. *)
Record HttpResponse := {
  code : nat;
  parsed : Thrown + option Body
}.

(** The [fetch] of one of the application's own endpoints, and the
    [fetch] of a data URL with its [blob()]. *)
Variable post : string -> Request -> World -> (Thrown + HttpResponse) * World.
Variable fetch : string -> World -> (Thrown + Fetched) * World.
Variable blobOf : Fetched -> World -> (Thrown + Blob) * World.

(** The [TypeError] raised when the named property is read off [null]. *)
Variable nullAccess : string -> Thrown.

Definition handleApiResponse (response : HttpResponse) : Thrown + option Body :=
  if negb (ok (code response)) then
    let errorData :=
      match parsed response with
      | inr data => data
      | inl _ => Some (errorBody "An unknown server error occurred")
      end in
    match errorData with
    | None => inl (nullAccess "error")
    | Some errorData =>
        inl (ErrorObject
               (orElse (error errorData)
                  ("Request failed with status " +:+ pretty (code response))))
    end
  else parsed response.

(** [base64ToBlob(base64)] with its default MIME type; an [undefined]
    argument is spelled out by the template. *)
Definition base64ToBlob (base64 : option string) (w : World) : (Thrown + Blob) * World :=
  match fetch ("data:image/png;base64," +:+ default "undefined" base64) w with
  | (inl thrown, w1) => (inl thrown, w1)
  | (inr res, w1) => blobOf res w1
  end.

Definition removeBackground (imageUrl : string) (w : World) : (Thrown + Blob) * World :=
  match post "/api/clipdrop"
          {| method := "POST"; payload := Some (Some imageUrl) |} w with
  | (inl thrown, w1) => (inl thrown, w1)
  | (inr response, w1) =>
      match handleApiResponse response with
      | inl thrown => (inl thrown, w1)
      | inr None => (inl (nullAccess "imageBase64"), w1)
      | inr (Some data) => base64ToBlob (imageBase64 data) w1
      end
  end.

End Client.

Arguments HttpResponse : clear implicits.

(** What [generateImageFromPrompt] of the service module makes of the
    image the server sent. *)
Definition imageDataUrl (imageBase64 : string) : string :=
  "data:image/png;base64," +:+ imageBase64.

End Wire.

(** ** The model endpoint ([api/gemini.ts]) *)

Module Gemini.

(** [req.body.payload], each key optional. *)
Record Payload := {
  userIdea : option string;
  prompt : option string;
  base64ImageData : option string;
  mimeType : option string;
  width : option N;
  height : option N
}.

(** [req.body]. *)
Record RequestBody := {
  action : option string;
  payload : option Payload
}.

Record Request := {
  method : string;
  body : option RequestBody
}.

(** A call of [ai.models.generateContent]: one constructor per call site,
    with the values the call site puts into its fixed prompt and
    configuration. *)
Inductive ModelCall :=
| AskIdea
| AskMetadata (userIdea : string)
| AskImage (prompt : string)
| AskInspiration (base64ImageData mimeType : string)
| AskPrintCheck (base64ImageData mimeType : string) (width height : option N)
| AskNiche
| AskUpscale (base64ImageData mimeType : string).

(** One part of the first candidate: [inlineData] is [None] when the part
    has none, and holds [None] when it has no [data]. *)
Record Part := {
  inlineData : option (option string)
}.

(** What the handler reads of a response: [response.text] and
    [response.candidates?.[0]?.content?.parts]. *)
Record ModelResponse := {
  text : option string;
  parts : option (list Part)
}.

Section Handler.

Context {World Json : Type}.

(** [JSON.parse]. *)
Variable parse : string -> Thrown + Json.

(** The client built with the key, called. *)
Variable generateContent : string -> ModelCall -> World
                           -> (Thrown + ModelResponse) * World.

(** The [TypeError] raised when the named property is read off
    [undefined]. *)
Variable typeError : string -> Thrown.

(** The JSON bodies the handler sends. *)
Inductive Body :=
| ErrorBody (error : string)
| TextBody (text : option string)
| ImageBody (imageBase64 : string)
| JsonBody (value : Json).

Inductive Reply :=
| Responded (code : nat) (body : Body)
| Unhandled.

(** [handleError]. *)
Definition handleError (thrown : Thrown) : Reply :=
  Responded 500
    (ErrorBody (match thrown with
                | ErrorObject m => m
                | OtherValue => "An unknown server error occurred."
                end)).

(** The [replace] that deletes every double quote. *)
Fixpoint removeQuotes (s : string) : string :=
  match s with
  | EmptyString => EmptyString
  | String c rest =>
      if Ascii.eqb c "034"%char then removeQuotes rest
      else String c (removeQuotes rest)
  end.

(** [parts?.find(p => p.inlineData)] followed by the test of
    [resultPart?.inlineData?.data]: the data of the first part that has
    inline data, when it is not empty. *)
Definition imageData (response : ModelResponse) : option string :=
  match parts response with
  | None => None
  | Some ps =>
      match List.find (fun p => bool_decide (is_Some (inlineData p))) ps with
      | Some p =>
          match inlineData p with
          | Some (Some data) => if JS.truthy data then Some data else None
          | _ => None
          end
      | None => None
      end
  end.

(** [res.status(200).json(JSON.parse(response.text))]; an [undefined]
    text is parsed as the word [undefined]. *)
Definition parsedReply (response : ModelResponse) : Reply :=
  match parse (default "undefined" (text response)) with
  | inl thrown => handleError thrown
  | inr value => Responded 200 (JsonBody value)
  end.

(** A model call inside the [try] block, and what is made of its
    response. *)
Definition calling (key : string) (call : ModelCall)
    (respond : ModelResponse -> Reply) (w : World) : Reply * World :=
  match generateContent key call w with
  | (inl thrown, w1) => (handleError thrown, w1)
  | (inr response, w1) => (respond response, w1)
  end.

Definition handler (req : Request) (API_KEY : option string) (w : World)
    : Reply * World :=
  if negb (String.eqb (method req) "POST")
  then (Responded 405 (ErrorBody "Method Not Allowed"), w)
  else if negb (Wire.present API_KEY)
  then (Responded 500
          (ErrorBody "API key not configured on the server. Please set the API_KEY environment variable."), w)
  else
    let key := default EmptyString API_KEY in
    match body req with
    | None => (Unhandled, w)
    | Some b =>
        match action b with
        | None => (Responded 400 (ErrorBody "Invalid action specified."), w)
        | Some a =>
            if String.eqb a "suggestIdea" then
              calling key AskIdea
                (fun response =>
                   match text response with
                   | None => handleError (typeError "trim")
                   | Some t => Responded 200 (TextBody (Some (removeQuotes (JS.trim t))))
                   end) w
            else if String.eqb a "generateMetadataAndPrompt" then
              match payload b with
              | None => (handleError (typeError "userIdea"), w)
              | Some p =>
                  if negb (Wire.present (userIdea p))
                  then (Responded 400 (ErrorBody "userIdea is required."), w)
                  else calling key (AskMetadata (default EmptyString (userIdea p)))
                         parsedReply w
              end
            else if String.eqb a "generateImageFromPrompt" then
              match payload b with
              | None => (handleError (typeError "prompt"), w)
              | Some p =>
                  if negb (Wire.present (prompt p))
                  then (Responded 400 (ErrorBody "Prompt is required."), w)
                  else calling key (AskImage (default EmptyString (prompt p)))
                         (fun response =>
                            match imageData response with
                            | Some data => Responded 200 (ImageBody data)
                            | None =>
                                handleError
                                  (ErrorObject "Could not find image data in Gemini response.")
                            end) w
              end
            else if String.eqb a "analyzeImageForInspiration" then
              match payload b with
              | None => (handleError (typeError "base64ImageData"), w)
              | Some p =>
                  if negb (Wire.present (base64ImageData p))
                  then (Responded 400 (ErrorBody "Image data is required."), w)
                  else calling key
                         (AskInspiration (default EmptyString (base64ImageData p))
                            (Wire.orElse (mimeType p) "image/png"))
                         parsedReply w
              end
            else if String.eqb a "analyzeImageForPrint" then
              match payload b with
              | None => (handleError (typeError "base64ImageData"), w)
              | Some p =>
                  if negb (Wire.present (base64ImageData p))
                  then (Responded 400 (ErrorBody "Image data is required."), w)
                  else calling key
                         (AskPrintCheck (default EmptyString (base64ImageData p))
                            (Wire.orElse (mimeType p) "image/png")
                            (width p) (height p))
                         parsedReply w
              end
            else if String.eqb a "getNicheResearch" then
              calling key AskNiche
                (fun response => Responded 200 (TextBody (text response))) w
            else if String.eqb a "upscaleImage" then
              match payload b with
              | None => (handleError (typeError "base64ImageData"), w)
              | Some p =>
                  if negb (Wire.present (base64ImageData p))
                  then (Responded 400 (ErrorBody "Image data is required."), w)
                  else calling key
                         (AskUpscale (default EmptyString (base64ImageData p))
                            (Wire.orElse (mimeType p) "image/png"))
                         (fun response =>
                            match imageData response with
                            | Some data => Responded 200 (ImageBody data)
                            | None =>
                                handleError
                                  (ErrorObject "Could not find upscaled image data in response.")
                            end) w
              end
            else (Responded 400 (ErrorBody "Invalid action specified."), w)
        end
    end.

End Handler.

(** The actions the handler knows, each with the input it asks of the
    payload ([None] when it asks for none). *)
Definition requiredInput (a : string) : option (option (Payload -> option string)) :=
  if String.eqb a "suggestIdea" then Some None
  else if String.eqb a "generateMetadataAndPrompt" then Some (Some userIdea)
  else if String.eqb a "generateImageFromPrompt" then Some (Some prompt)
  else if String.eqb a "analyzeImageForInspiration" then Some (Some base64ImageData)
  else if String.eqb a "analyzeImageForPrint" then Some (Some base64ImageData)
  else if String.eqb a "getNicheResearch" then Some None
  else if String.eqb a "upscaleImage" then Some (Some base64ImageData)
  else None.

(** A request the handler takes to the model: a POST, with the key
    configured, for a known action whose input is present. *)
Definition acceptable (req : Request) (API_KEY : option string) : Prop :=
  method req = "POST"
  /\ Wire.present API_KEY = true
  /\ exists b a need,
       body req = Some b /\ action b = Some a /\ requiredInput a = Some need
       /\ match need with
          | None => True
          | Some field =>
              exists p, payload b = Some p /\ Wire.present (field p) = true
          end.

(** A body that holds something for the caller: a text, an image or a
    parsed value.  An error does not, and neither does the empty object
    that [res.json({ text: undefined })] sends. *)
Definition carriesResult {Json : Type} (body : Body (Json := Json)) : bool :=
  match body with
  | ErrorBody _ | TextBody None => false
  | TextBody (Some _) | ImageBody _ | JsonBody _ => true
  end.

End Gemini.

(** ** Scripted collaborators for the concrete runs of the wire, the
    archive and the suggestion *)

Module Script2.

(** The world counts the calls made. *)
Definition World := nat.

Definition suggest (idea : string) : World -> (Thrown + string) * World :=
  fun w => (inr idea, S w).

Definition fetch : string -> World -> (Thrown + string) * World :=
  fun url w => (inr url, S w).

Definition blobOf : string -> World -> (Thrown + string) * World :=
  fun fetched w => (inr ("blob of " +:+ fetched), w).

(** Three designs: two whose titles give the same slug, one without a
    title. *)
Definition shelf : list (string * Metadata) :=
  [("data:image/png;base64,AAAA", Script.sampleMetadata "A Cat");
   ("data:image/png;base64,BBBB", Script.sampleMetadata "a cat");
   ("data:image/png;base64,CCCC", Script.sampleMetadata "")].

Definition untitled (i : string) : DesignData :=
  {| id := i; metadata := Script.sampleMetadata "";
     imageUrl := "data:image/png;base64,CCCC";
     originalImageUrl := "data:image/png;base64,CCCC";
     originalIdea := "a cat"; bgRemoved := false; upscaled := false |}.

(** A background-removal service that is out of credits, and one that
    answers with the picture reversed. *)
Definition outOfCredits : string -> string -> World
    -> (Thrown + Wire.Upstream string) * World :=
  fun key buffer w =>
    (inr {| Wire.upstreamCode := 402;
            Wire.upstreamJson := Wire.ValueJson (Some "Out of credits");
            Wire.arrayBuffer := inl OtherValue |}, S w).

Definition working : string -> string -> World
    -> (Thrown + Wire.Upstream string) * World :=
  fun key buffer w =>
    (inr {| Wire.upstreamCode := 200;
            Wire.upstreamJson := Wire.NotJson;
            Wire.arrayBuffer := inr (String.rev buffer) |}, S w).

Definition identity (s : string) : string := s.

(** The [TypeError] of the browser for a property read off [null]. *)
Definition nullAccess (property : string) : Thrown :=
  ErrorObject ("Cannot read properties of null, reading " +:+ property).

Definition request (imageUrl : string) : Wire.Request :=
  {| Wire.method := "POST"; Wire.payload := Some (Some imageUrl) |}.

(** The endpoint as the browser reaches it, with the scripted service
    behind it and the key configured. *)
Definition post (service : string -> string -> World
                           -> (Thrown + Wire.Upstream string) * World)
    : string -> Wire.Request -> World -> (Thrown + Wire.HttpResponse) * World :=
  fun _ req w =>
    match Wire.handler identity identity service (ErrorObject "null") req
            (Some "key") w with
    | (Wire.Responded code body, w') =>
        (inr {| Wire.code := code; Wire.parsed := inr (Some body) |}, w')
    | (Wire.Unhandled, w') =>
        (inr {| Wire.code := 500; Wire.parsed := inl OtherValue |}, w')
    end.

(** The scripted application with background removal going through the
    service module and the endpoint. *)
Definition wired (service : string -> string -> World
                            -> (Thrown + Wire.Upstream string) * World)
    : Api World string :=
  {| generateMetadataAndPrompt :=
       generateMetadataAndPrompt (Script.api Script.cutout true);
     generateImageFromPrompt :=
       generateImageFromPrompt (Script.api Script.cutout true);
     removeBackground := Wire.removeBackground (post service) fetch blobOf nullAccess;
     upscaleImage := upscaleImage (Script.api Script.cutout true);
     blobToDataUrl := blobToDataUrl (Script.api Script.cutout true);
     randomUUID := randomUUID (Script.api Script.cutout true);
     confirm := confirm (Script.api Script.cutout true) |}.

(** What is left of [shelf] in the archive: the second cat has replaced
    the first. *)
Definition shelfArchive : gmap string string :=
  <["design_2.png" := "blob of data:image/png;base64,CCCC"]>
    (<["a_cat.png" := "blob of data:image/png;base64,BBBB"]> ∅).

(** A model that suggests a quoted idea and draws a picture announced by
    a line of text. *)
Definition model : string -> Gemini.ModelCall -> World
    -> (Thrown + Gemini.ModelResponse) * World :=
  fun key call w =>
    match call with
    | Gemini.AskIdea =>
        (inr {| Gemini.text := Some (" " +:+ JS.dquote +:+ "a fox" +:+ JS.dquote);
                Gemini.parts := None |}, S w)
    | Gemini.AskImage _ =>
        (inr {| Gemini.text := None;
                Gemini.parts :=
                  Some [ {| Gemini.inlineData := None |};
                         {| Gemini.inlineData := Some (Some "QUJD") |};
                         {| Gemini.inlineData := Some (Some "REVG") |} ] |}, S w)
    | _ => (inl (ErrorObject "overloaded"), S w)
    end.

(** A model whose responses hold neither text nor parts. *)
Definition silent : string -> Gemini.ModelCall -> World
    -> (Thrown + Gemini.ModelResponse) * World :=
  fun key call w => (inr {| Gemini.text := None; Gemini.parts := None |}, S w).

(** Parsed JSON kept as its text. *)
Definition parse (s : string) : Thrown + string := inr s.

Definition typeError (property : string) : Thrown :=
  ErrorObject ("Cannot read properties of undefined, reading " +:+ property).

Definition emptyPayload : Gemini.Payload :=
  {| Gemini.userIdea := None; Gemini.prompt := None;
     Gemini.base64ImageData := None; Gemini.mimeType := None;
     Gemini.width := None; Gemini.height := None |}.

Definition imageRequest (p : string) : Gemini.Request :=
  {| Gemini.method := "POST";
     Gemini.body :=
       Some {| Gemini.action := Some "generateImageFromPrompt";
               Gemini.payload :=
                 Some {| Gemini.userIdea := None; Gemini.prompt := Some p;
                         Gemini.base64ImageData := None;
                         Gemini.mimeType := None;
                         Gemini.width := None; Gemini.height := None |} |} |}.

Definition ideaRequest : Gemini.Request :=
  {| Gemini.method := "POST";
     Gemini.body := Some {| Gemini.action := Some "suggestIdea";
                            Gemini.payload := None |} |}.

Definition nicheRequest : Gemini.Request :=
  {| Gemini.method := "POST";
     Gemini.body := Some {| Gemini.action := Some "getNicheResearch";
                            Gemini.payload := None |} |}.

(** A request for an action the handler does not know. *)
Definition strangeRequest : Gemini.Request :=
  {| Gemini.method := "POST";
     Gemini.body := Some {| Gemini.action := Some "deleteEverything";
                            Gemini.payload := Some emptyPayload |} |}.

End Script2.

(** ** Scripted collaborators for the concrete runs of the upload *)

Module Script3.

(** The world counts the requests made. *)
Definition World := nat.














End Script3.

(** ** Basic facts about lookup by id and update by id *)

Section StoreFacts.

Implicit Types (i : string) (d : DesignData) (designs : list DesignData).

Lemma find_Some i designs d :
  find i designs = Some d -> d ∈ designs /\ id d = i.
Proof.
  unfold find. intros H.
  destruct (list_find _ designs) as [[n d']|] eqn:E; simplify_eq/=.
  apply list_find_Some in E as (Hn & Hid & _).
  split; [by eapply list_elem_of_lookup_2 | done].
Qed.

Lemma find_None i designs :
  find i designs = None <-> i ∉ id <$> designs.
Proof.
  unfold find. rewrite fmap_None, list_find_None, Forall_forall.
  rewrite list_elem_of_fmap. split.
  - intros H (d & -> & Hd). by apply (H d).
  - intros H d Hd Hid. apply H. eauto.
Qed.

Lemma find_first i d designs :
  find i (d :: designs) =
  if decide (id d = i) then Some d else find i designs.
Proof.
  unfold find. cbn. case_decide; [done|].
  by destruct (list_find _ designs) as [[? ?]|].
Qed.

Lemma find_unique designs d :
  NoDup (id <$> designs) -> d ∈ designs -> find (id d) designs = Some d.
Proof.
  induction designs as [|d0 designs IH]; intros Hnd Hin.
  - by apply elem_of_nil in Hin.
  - rewrite fmap_cons in Hnd. apply NoDup_cons in Hnd as [Hfresh Hnd].
    rewrite find_first. apply elem_of_cons in Hin as [->|Hin].
    + by rewrite decide_True.
    + rewrite decide_False; [by apply IH|].
      intros Heq. apply Hfresh. rewrite Heq. by apply list_elem_of_fmap_2.
Qed.

Lemma findIndex_find i designs d :
  find i designs = Some d ->
  exists n : nat, findIndex i designs = Z.of_nat n /\ designs !! n = Some d.
Proof.
  unfold find, findIndex. intros H.
  destruct (list_find _ designs) as [[n d']|] eqn:E; simplify_eq/=.
  apply list_find_Some in E as (Hn & _). eauto.
Qed.

Lemma applyUpdates_length i updates designs :
  length (applyUpdates i updates designs) = length designs.
Proof. unfold applyUpdates. by rewrite length_fmap. Qed.

Lemma applyUpdates_lookup i updates designs n :
  applyUpdates i updates designs !! n =
  (fun d => if decide (id d = i) then spread d updates else d) <$> designs !! n.
Proof. unfold applyUpdates. by rewrite list_lookup_fmap. Qed.

(** An update that carries no [id] key keeps every id in place. *)
Lemma applyUpdates_ids i updates designs :
  p_id updates = None -> id <$> applyUpdates i updates designs = id <$> designs.
Proof.
  intros Hid. unfold applyUpdates. rewrite <- list_fmap_compose.
  apply list_fmap_ext. intros n d _. cbn.
  case_decide; [|done]. unfold spread; cbn. by rewrite Hid.
Qed.

(** Likewise for [originalImageUrl] and [originalIdea]. *)
Lemma applyUpdates_originals i updates designs :
  p_originalImageUrl updates = None -> p_originalIdea updates = None ->
  (fun d => (originalImageUrl d, originalIdea d)) <$> applyUpdates i updates designs
  = (fun d => (originalImageUrl d, originalIdea d)) <$> designs.
Proof.
  intros H1 H2. unfold applyUpdates. rewrite <- list_fmap_compose.
  apply list_fmap_ext. intros n d _. cbn.
  case_decide; [|done]. unfold spread; cbn. by rewrite H1, H2.
Qed.

Lemma applyUpdates_immutable i updates designs :
  p_id updates = None -> p_originalImageUrl updates = None ->
  p_originalIdea updates = None ->
  immutablePart <$> applyUpdates i updates designs = immutablePart <$> designs.
Proof.
  intros H0 H1 H2. unfold applyUpdates. rewrite <- list_fmap_compose.
  apply list_fmap_ext. intros n d _. cbn.
  case_decide; [|done]. unfold immutablePart, spread; cbn.
  by rewrite H0, H1, H2.
Qed.

Lemma immutable_ids (l1 l2 : list DesignData) :
  immutablePart <$> l2 = immutablePart <$> l1 -> id <$> l2 = id <$> l1.
Proof.
  intros H. apply (f_equal (fmap (fun p : string * string * string => p.1.1))) in H.
  by rewrite <- !list_fmap_compose in H.
Qed.

(** Looking a design up after an update that carries no [id] key. *)
Lemma find_applyUpdates i j updates designs :
  p_id updates = None ->
  find j (applyUpdates i updates designs)
  = (fun d => if decide (id d = i) then spread d updates else d) <$> find j designs.
Proof.
  intros Hid. induction designs as [|d designs IH]; [done|].
  unfold applyUpdates in *. rewrite fmap_cons, !find_first, IH.
  assert (id (if decide (id d = i) then spread d updates else d) = id d) as ->.
  { case_decide; [|done]. unfold spread; cbn. by rewrite Hid. }
  by case_decide.
Qed.

(** A design whose id is not the target is not touched. *)
Lemma applyUpdates_other i updates designs d :
  d ∈ designs -> id d ≠ i -> d ∈ applyUpdates i updates designs.
Proof.
  intros Hin Hne. unfold applyUpdates. apply list_elem_of_fmap.
  exists d. by rewrite decide_False.
Qed.

Lemma applyUpdates_absent i updates designs :
  i ∉ id <$> designs -> applyUpdates i updates designs = designs.
Proof.
  intros Hnot. unfold applyUpdates. rewrite <- (list_fmap_id designs) at 2.
  apply list_fmap_ext. intros n d Hn. cbn.
  case_decide as Heq; [|done]. exfalso. apply Hnot. rewrite <- Heq.
  apply list_elem_of_fmap_2. by eapply list_elem_of_lookup_2.
Qed.

(** When every attempt succeeded, the successes are the attempts. *)
Lemma successes_all (rs : list (Thrown + DesignData)) (ideas : list string) :
  Forall2 (fun r idea => forall d, r = inr d -> originalIdea d = idea) rs ideas ->
  (forall j, j < length rs -> exists d, rs !! j = Some (inr d)) ->
  inr <$> successes rs = rs /\ originalIdea <$> successes rs = ideas.
Proof.
  induction 1 as [|r idea rs ideas Hr _ IH]; intros Hall; [done|].
  destruct (Hall 0) as [d Hd]; [cbn; lia|]. cbn in Hd. simplify_eq.
  destruct IH as [IH1 IH2].
  { intros j Hj. apply (Hall (S j)). cbn; lia. }
  unfold successes in *. cbn. rewrite IH1, IH2. by rewrite (Hr d eq_refl).
Qed.

(** When exactly the attempt at position [k] failed, the successes are
    the attempts without that one, in the same order. *)
Lemma successes_delete (rs : list (Thrown + DesignData)) (ideas : list string) :
  Forall2 (fun r idea => forall d, r = inr d -> originalIdea d = idea) rs ideas ->
  forall k e,
  rs !! k = Some (inl e) ->
  (forall j, j ≠ k -> j < length rs -> exists d, rs !! j = Some (inr d)) ->
  inr <$> successes rs = delete k rs
  /\ originalIdea <$> successes rs = delete k ideas.
Proof.
  induction 1 as [|r idea rs ideas Hr Hrs IH]; intros k e Hk Hothers; [done|].
  destruct k as [|k]; cbn in Hk.
  - simplify_eq. cbn.
    apply (successes_all rs ideas Hrs).
    intros j Hj. apply (Hothers (S j)); [done|cbn; lia].
  - destruct (Hothers 0) as [d Hd]; [done|cbn; lia|]. cbn in Hd. simplify_eq.
    destruct (IH k e Hk) as [IH1 IH2].
    { intros j Hne Hj. apply (Hothers (S j)); [congruence|cbn; lia]. }
    unfold successes in *. cbn. rewrite IH1, IH2. by rewrite (Hr d eq_refl).
Qed.

(** Two designs with the same id in stores that agree on their immutable
    parts: the immutable parts are those of one record. *)
Lemma immutable_same_record (l1 l2 : list DesignData) d1 d2 :
  immutablePart <$> l2 = immutablePart <$> l1 ->
  NoDup (id <$> l1) -> d1 ∈ l1 -> d2 ∈ l2 -> id d1 = id d2 ->
  immutablePart d1 = immutablePart d2.
Proof.
  intros Heq Hnd H1 H2 Hid.
  apply (list_elem_of_fmap_2 immutablePart) in H2. rewrite Heq in H2.
  apply list_elem_of_fmap in H2 as (d1' & Hp & H1').
  assert (d1' = d1) as ->; [|done].
  pose proof (find_unique _ _ Hnd H1) as F1.
  pose proof (find_unique _ _ Hnd H1') as F1'.
  assert (id d1' = id d1) as Hsame.
  { rewrite Hid. unfold immutablePart in Hp. by simplify_eq. }
  rewrite Hsame in F1'. rewrite F1 in F1'. by simplify_eq.
Qed.

End StoreFacts.

(** ** What each handler does, case by case *)

Ltac task_unfold :=
unfold storeAfter, handle,
  handleClearSession, handleGenerateFromIdea, handleRevert, handleRemix,
  handleUpscale, handleRemoveBackground, handleBulkGeneration,
  updateDesign, showMessage, setMessage, setLoadingMessage, setIsLoading,
  updateGeneratedDesigns, setGeneratedDesigns, setState, getState,
  perform, await, tryCatch, bind, ret in *.

Section HandlerFacts.

Context {World Blob : Type}.
Variable api : Api World Blob.

Implicit Types (w : World) (s : AppState) (i idea : string) (d : DesignData).

Lemma generateSingleDesign_ok idea w s d w' :
  generationAttempt api idea w = (inr d, w') ->
  generateSingleDesign api idea w s = (inr (Some d), w', s).
Proof.
  unfold generationAttempt, generateSingleDesign. task_unfold.
  destruct (generateMetadataAndPrompt api idea w) as [[e|package] w1];
    [by intros ?; simplify_eq|].
  destruct (generateImageFromPrompt api _ w1) as [[e|url] w2];
    [by intros ?; simplify_eq|].
  destruct (randomUUID api w2) as [uuid w3]. by intros ?; simplify_eq.
Qed.

Lemma generateSingleDesign_fail idea w s e w' :
  generationAttempt api idea w = (inl e, w') ->
  exists s', generateSingleDesign api idea w s = (inr None, w', s')
             /\ generatedDesigns s' = generatedDesigns s
             /\ isLoading s' = isLoading s.
Proof.
  unfold generationAttempt, generateSingleDesign. task_unfold.
  destruct (generateMetadataAndPrompt api idea w) as [[e1|package] w1].
  { intros ?; simplify_eq. eauto. }
  destruct (generateImageFromPrompt api _ w1) as [[e2|url] w2].
  { intros ?; simplify_eq. eauto. }
  destruct (randomUUID api w2) as [uuid w3]. by intros ?; simplify_eq.
Qed.

(** A Design is created showing its original image, with no transform
    applied. *)
Lemma generationAttempt_original idea w d w' :
  generationAttempt api idea w = (inr d, w') ->
  originalImageUrl d = imageUrl d /\ originalIdea d = idea
  /\ bgRemoved d = false /\ upscaled d = false.
Proof.
  unfold generationAttempt.
  destruct (generateMetadataAndPrompt api idea w) as [[?|package] w1]; [done|].
  destruct (generateImageFromPrompt api _ w1) as [[?|url] w2]; [done|].
  destruct (randomUUID api w2) as [uuid w3]. by intros ?; simplify_eq.
Qed.

(** Whatever the gateways answer, [generateSingleDesign] returns: it
    never throws. *)
Lemma generateSingleDesign_total idea w s :
  exists r w' s', generateSingleDesign api idea w s = (inr r, w', s')
    /\ generatedDesigns s' = generatedDesigns s
    /\ r = match (generationAttempt api idea w).1 with
           | inr d => Some d
           | inl _ => None
           end
    /\ w' = (generationAttempt api idea w).2.
Proof.
  destruct (generationAttempt api idea w) as [[e|d] w'] eqn:E.
  - destruct (generateSingleDesign_fail idea w s e w' E) as (s' & -> & Hs & _).
    by exists None, w', s'.
  - rewrite (generateSingleDesign_ok idea w s d w' E). by exists (Some d), w', s.
Qed.

(** The loop of the bulk handler leaves exactly the designs collected
    before it, followed by those of the attempts that succeeded. *)
Lemma bulkLoop_store remaining : forall total n newDesigns w s,
  generatedDesigns s = newDesigns ->
  exists w' s', bulkLoop api total n remaining newDesigns w s = (inr tt, w', s')
    /\ generatedDesigns s' = newDesigns ++ successes (attempts api remaining w)
    /\ isLoading s' = isLoading s.
Proof.
  induction remaining as [|idea remaining IH]; intros total n newDesigns w s Hs.
  - exists w, s. cbn. by rewrite app_nil_r.
  - cbn [bulkLoop attempts]. unfold bind at 1. unfold setLoadingMessage, setState.
    unfold bind at 1.
    destruct (generationAttempt api idea w) as [[e|d] w1] eqn:E.
    + edestruct (generateSingleDesign_fail idea w) as (s1 & -> & Hs1 & Hl1); [exact E|].
      edestruct (IH total (S n) newDesigns w1 s1) as (w' & s' & -> & Hs' & Hl').
      { by rewrite Hs1. }
      exists w', s'. split; [done|]. split; [|by rewrite Hl', Hl1].
      by rewrite Hs'.
    + erewrite generateSingleDesign_ok by exact E.
      unfold bind at 1. unfold setGeneratedDesigns, setState.
      edestruct (IH total (S n) (newDesigns ++ [d]) w1)
        as (w' & s' & -> & Hs' & Hl'); [done|].
      exists w', s'. split; [done|]. split; [|done].
      rewrite Hs'. cbn. by rewrite <- app_assoc.
Qed.

End HandlerFacts.

Section CommandFacts.

Context {World Blob : Type}.
Variable api : Api World Blob.

Implicit Types (w : World) (s : AppState) (i : string) (c : Command).

(** A command other than bulk generation and clear returns normally and
    keeps the immutable part of every record in place; it may append. *)
Lemma handle_keeps c w s :
  keepsRecords c = true ->
  exists w' s' extra,
    handle api c w s = (inr tt, w', s')
    /\ immutablePart <$> generatedDesigns s'
       = (immutablePart <$> generatedDesigns s) ++ extra.
Proof.
  destruct c as [description| |i|i|i|i|]; try discriminate; intros _; cbn [handle].
  - (* GenerateFromIdea *)
    unfold handleGenerateFromIdea. task_unfold.
    match goal with |- context [generateSingleDesign api description w ?s0] =>
      destruct (generateSingleDesign_total api description w s0)
        as (r & w' & s' & -> & Hs & _ & _) end.
    destruct r as [d|]; eexists _, _, _; (split; [reflexivity|]); cbn.
    + rewrite Hs; cbn. by rewrite fmap_app.
    + rewrite Hs; cbn. by rewrite app_nil_r.
  - (* RemoveBackground *)
    task_unfold. destruct (find i (generatedDesigns s)) as [d|];
      [|exists w, s, []; by rewrite app_nil_r].
    destruct (bgRemoved d); [exists w, s, []; by rewrite app_nil_r|].
    destruct (removeBackground api (imageUrl d) w) as [[e|blob] w1];
      [eexists _, _, []; split; [reflexivity|cbn; by rewrite app_nil_r]|].
    destruct (blobToDataUrl api blob w1) as [[e|url] w2];
      [eexists _, _, []; split; [reflexivity|cbn; by rewrite app_nil_r]|].
    eexists _, _, []; split; [reflexivity|]. cbn.
    by rewrite applyUpdates_immutable, app_nil_r.
  - (* Upscale *)
    task_unfold. destruct (find i (generatedDesigns s)) as [d|];
      [|exists w, s, []; by rewrite app_nil_r].
    destruct (upscaled d); [exists w, s, []; by rewrite app_nil_r|].
    destruct (upscaleImage api (imageUrl d) w) as [[e|blob] w1];
      [eexists _, _, []; split; [reflexivity|cbn; by rewrite app_nil_r]|].
    destruct (blobToDataUrl api blob w1) as [[e|url] w2];
      [eexists _, _, []; split; [reflexivity|cbn; by rewrite app_nil_r]|].
    eexists _, _, []; split; [reflexivity|]. cbn.
    by rewrite applyUpdates_immutable, app_nil_r.
  - (* Remix *)
    unfold handleRemix. task_unfold.
    destruct (find i (generatedDesigns s)) as [d|];
      [|exists w, s, []; by rewrite app_nil_r].
    match goal with |- context [generateSingleDesign api ?idea w ?s0] =>
      destruct (generateSingleDesign_total api idea w s0)
        as (r & w' & s' & -> & Hs & _ & _) end.
    destruct r as [d'|]; eexists _, _, _; (split; [reflexivity|]); cbn.
    + rewrite Hs; cbn. by rewrite fmap_app.
    + rewrite Hs; cbn. by rewrite app_nil_r.
  - (* Revert *)
    task_unfold. destruct (find i (generatedDesigns s)) as [d|];
      [|exists w, s, []; by rewrite app_nil_r].
    destruct (String.eqb _ _); [exists w, s, []; by rewrite app_nil_r|].
    eexists _, _, []; split; [reflexivity|]. cbn.
    by rewrite applyUpdates_immutable, app_nil_r.
Qed.

(** The same for any run of such commands. *)
Lemma handleAll_keeps (cs : list Command) : forall w s,
  Forall (fun c => keepsRecords c = true) cs ->
  exists w' s' extra,
    handleAll api cs w s = (inr tt, w', s')
    /\ immutablePart <$> generatedDesigns s'
       = (immutablePart <$> generatedDesigns s) ++ extra.
Proof.
  induction cs as [|c cs IH]; intros w s Hcs.
  - exists w, s, []. split; [done|]. by rewrite app_nil_r.
  - apply Forall_cons in Hcs as [Hc Hcs].
    destruct (handle_keeps c w s Hc) as (w1 & s1 & extra1 & E1 & H1).
    destruct (IH w1 s1 Hcs) as (w2 & s2 & extra2 & E2 & H2).
    exists w2, s2, (extra1 ++ extra2). cbn [handleAll].
    unfold bind, tryCatch. rewrite E1, E2. split; [done|].
    by rewrite H2, H1, app_assoc.
Qed.

(** An image transform keeps the immutable parts as they are and adds
    nothing. *)
Lemma transform_immutable c w s :
  isTransform c = true ->
  exists w' s', handle api c w s = (inr tt, w', s')
    /\ immutablePart <$> generatedDesigns s' = immutablePart <$> generatedDesigns s.
Proof.
  destruct c as [description| |i|i|i|i|]; try discriminate; intros _; cbn [handle].
  - task_unfold. destruct (find i (generatedDesigns s)) as [d|]; [|by eauto].
    destruct (bgRemoved d); [by eauto|].
    destruct (removeBackground api (imageUrl d) w) as [[e|blob] w1]; [by eauto|].
    destruct (blobToDataUrl api blob w1) as [[e|url] w2]; [by eauto|].
    eexists _, _; split; [reflexivity|]. cbn. by rewrite applyUpdates_immutable.
  - task_unfold. destruct (find i (generatedDesigns s)) as [d|]; [|by eauto].
    destruct (upscaled d); [by eauto|].
    destruct (upscaleImage api (imageUrl d) w) as [[e|blob] w1]; [by eauto|].
    destruct (blobToDataUrl api blob w1) as [[e|url] w2]; [by eauto|].
    eexists _, _; split; [reflexivity|]. cbn. by rewrite applyUpdates_immutable.
Qed.

Lemma transforms_immutable (cs : list Command) : forall w s,
  Forall (fun c => isTransform c = true) cs ->
  exists w' s', handleAll api cs w s = (inr tt, w', s')
    /\ immutablePart <$> generatedDesigns s' = immutablePart <$> generatedDesigns s.
Proof.
  induction cs as [|c cs IH]; intros w s Hcs; [by eauto|].
  apply Forall_cons in Hcs as [Hc Hcs].
  destruct (transform_immutable c w s Hc) as (w1 & s1 & E1 & H1).
  destruct (IH w1 s1 Hcs) as (w2 & s2 & E2 & H2).
  exists w2, s2. cbn [handleAll]. unfold bind, tryCatch. rewrite E1, E2.
  split; [done|]. by rewrite H2, H1.
Qed.

(** The attempts of a batch, one per idea, each for its own idea. *)
Lemma attempts_ideas (ideas : list string) : forall w,
  Forall2 (fun r idea => forall d, r = inr d -> originalIdea d = idea)
    (attempts api ideas w) ideas.
Proof.
  induction ideas as [|idea ideas IH]; intros w; cbn; [constructor|].
  destruct (generationAttempt api idea w) as [r w'] eqn:E.
  constructor; [|apply IH].
  intros d ->. unfold generationAttempt in E.
  destruct (generateMetadataAndPrompt api idea w) as [[?|package] w1]; [done|].
  destruct (generateImageFromPrompt api _ w1) as [[?|url] w2]; [done|].
  destruct (randomUUID api w2) as [uuid w3]. by simplify_eq.
Qed.

End CommandFacts.

(** ** The properties of the specification *)

Section Properties.

Context {World Blob : Type}.
Variable api : Api World Blob.

Implicit Types (w : World) (s : AppState) (i : string) (c : Command)
  (d : DesignData).

(** C10.  A transform, a remix or a revert whose [designId] is not the id
    of any Design in the store returns normally and leaves everything as
    it was: the store, the rest of the component state (no message is
    shown), and the world (no gateway is called). *)
Theorem unknown_id_is_ignored i c w s :
  i ∉ id <$> generatedDesigns s ->
  c ∈ [RemoveBackground i; Upscale i; Remix i; Revert i] ->
  handle api c w s = (inr tt, w, s).
Proof.
  intros Hi Hc. apply find_None in Hi.
  repeat (apply elem_of_cons in Hc as [->|Hc]);
    [..|by apply elem_of_nil in Hc]; task_unfold; by rewrite Hi.
Qed.

(** A generation attempt fails exactly when one of its two gateway calls
    does: the request for prompt and metadata, or the request for the
    image. *)
Lemma generationAttempt_fails idea w e :
  (generationAttempt api idea w).1 = inl e <->
  (generateMetadataAndPrompt api idea w).1 = inl e
  \/ exists package w1,
       generateMetadataAndPrompt api idea w = (inr package, w1)
       /\ (generateImageFromPrompt api (image_prompt package) w1).1 = inl e.
Proof.
  unfold generationAttempt.
  destruct (generateMetadataAndPrompt api idea w) as [[e1|package] w1]; cbn.
  { split; [intros ?; simplify_eq; by left|].
    by intros [?|(? & ? & ? & _)]; simplify_eq. }
  destruct (generateImageFromPrompt api _ w1) as [[e2|url] w2] eqn:E; cbn.
  - split.
    + intros ?; simplify_eq. right. exists package, w1. by rewrite E.
    + intros [?|(p & w1' & ? & H)]; simplify_eq.
      rewrite E in H; cbn in H. by simplify_eq.
  - destruct (randomUUID api w2) as [uuid w3]; cbn. split; [done|].
    intros [?|(p & w1' & ? & H)]; simplify_eq.
      rewrite E in H; cbn in H. by simplify_eq.
Qed.

(** C6.  When the gateway call of [removeBackground] or [upscale] fails,
    or a generation (from a suggestion or for a remix) fails at either of
    its steps, the handler still returns normally and the store is
    exactly what it was: no field of any Design changes and no record is
    added. *)
Theorem gateway_failure_leaves_store c w s :
  gatewayFails api c w s ->
  exists w' s', handle api c w s = (inr tt, w', s')
    /\ generatedDesigns s' = generatedDesigns s.
Proof.
  destruct c as [description| |i|i|i|i|]; cbn [gatewayFails handle]; try done.
  - intros (e & He). unfold handleGenerateFromIdea. task_unfold.
    match goal with |- context [generateSingleDesign api description w ?s0] =>
      destruct (generateSingleDesign_total api description w s0)
        as (r & w' & s' & -> & Hs & -> & _) end.
    rewrite He. eauto.
  - intros (d & e & Hf & Hflag & He). task_unfold. rewrite Hf, Hflag.
    unfold transformAttempt in He.
    destruct (removeBackground api (imageUrl d) w) as [[e1|blob] w1]; [by eauto|].
    destruct (blobToDataUrl api blob w1) as [[e2|url] w2]; [by eauto|done].
  - intros (d & e & Hf & Hflag & He). task_unfold. rewrite Hf, Hflag.
    unfold transformAttempt in He.
    destruct (upscaleImage api (imageUrl d) w) as [[e1|blob] w1]; [by eauto|].
    destruct (blobToDataUrl api blob w1) as [[e2|url] w2]; [by eauto|done].
  - intros (d & e & Hf & He). unfold handleRemix. task_unfold. rewrite Hf.
    match goal with |- context [generateSingleDesign api ?idea w ?s0] =>
      destruct (generateSingleDesign_total api idea w s0)
        as (r & w' & s' & -> & Hs & -> & _) end.
    rewrite He. eauto.
Qed.

(** C4.  Once [removeBackground] has been applied to a Design (the
    gateway answered, or the Design was already marked), applying it again
    is a no-op: the second call changes neither the store nor anything
    else, and calls no gateway. *)
Theorem remove_background_twice i w s :
  (forall d, find i (generatedDesigns s) = Some d -> bgRemoved d = false ->
     exists url,
       (transformAttempt api (removeBackground api) (imageUrl d) w).1 = inr url) ->
  exists w1 s1,
    handleRemoveBackground api i w s = (inr tt, w1, s1)
    /\ (forall d1, find i (generatedDesigns s1) = Some d1 -> bgRemoved d1 = true)
    /\ handleRemoveBackground api i w1 s1 = (inr tt, w1, s1).
Proof.
  intros Hok. unfold handleRemoveBackground at 1. task_unfold.
  destruct (find i (generatedDesigns s)) as [d|] eqn:Hf.
  - destruct (bgRemoved d) eqn:Hflag.
    + exists w, s. split; [done|]. split.
      * intros d1 H1. rewrite Hf in H1. by simplify_eq.
      * unfold handleRemoveBackground. task_unfold. by rewrite Hf, Hflag.
    + destruct (Hok d eq_refl Hflag) as [url Hurl].
      unfold transformAttempt in Hurl.
      destruct (removeBackground api (imageUrl d) w) as [[e1|blob] w1]; [done|].
      destruct (blobToDataUrl api blob w1) as [[e2|url'] w2]; [done|].
      eexists _, _. split; [reflexivity|]. cbn [generatedDesigns].
      assert (forall d1, find i (applyUpdates i
                 {| p_id := None; p_metadata := None; p_imageUrl := Some url';
                    p_originalImageUrl := None; p_originalIdea := None;
                    p_bgRemoved := Some true; p_upscaled := None |}
                 (generatedDesigns s)) = Some d1 -> bgRemoved d1 = true) as Hset.
      { intros d1. rewrite find_applyUpdates, Hf by done. cbn.
        destruct (find_Some _ _ _ Hf) as [_ Hid]. rewrite decide_True by done.
        by intros ?; simplify_eq. }
      split; [exact Hset|].
      unfold handleRemoveBackground. task_unfold. cbn [generatedDesigns].
      destruct (find i (applyUpdates _ _ _)) as [d1|] eqn:Hf1; [|done].
      by rewrite (Hset d1 eq_refl).
  - exists w, s. split; [done|]. split; [by rewrite Hf|].
    unfold handleRemoveBackground. task_unfold. by rewrite Hf.
Qed.

(** What bulk generation leaves in the store: with no idea in the text
    area, the store as it was; otherwise the designs of this batch and
    nothing else. *)
Lemma handleBulkGeneration_store w s :
  exists w' s', handleBulkGeneration api w s = (inr tt, w', s')
    /\ (parseIdeas (ideaPrompt s) = [] -> generatedDesigns s' = generatedDesigns s)
    /\ (parseIdeas (ideaPrompt s) ≠ [] ->
        generatedDesigns s'
        = successes (attempts api (parseIdeas (ideaPrompt s)) w)
        /\ isLoading s' = false).
Proof.
  unfold handleBulkGeneration. unfold bind at 1. unfold getState.
  destruct (parseIdeas (ideaPrompt s)) as [|idea ideas] eqn:E.
  - cbn. eexists _, _. by split; [reflexivity|].
  - cbn [length Nat.eqb]. task_unfold.
    match goal with |- context [bulkLoop api ?t ?n ?l ?nd w ?s0] =>
      destruct (bulkLoop_store api l t n nd w s0 eq_refl)
        as (w' & s' & -> & Hs & _) end.
    eexists _, _. split; [reflexivity|]. cbn. split; [done|]. intros _.
    by rewrite Hs.
Qed.

(** C1, as the code has it.  Clear is not the only command that drops
    records: bulk generation starts a fresh batch.  Every command returns
    normally.  The clear command leaves the store empty when the user
    confirms, and leaves world and state as the dialog left them when the
    user declines.  Bulk generation keeps the store when the text area
    holds no idea and otherwise leaves exactly the designs of the new
    batch.  Every other command keeps every Design of the store in place,
    so it never empties a non-empty store. *)
Theorem only_batch_and_clear_drop_designs c w s :
  exists w' s',
    handle api c w s = (inr tt, w', s')
    /\ match c with
       | ClearSession =>
           (confirm api
              "Are you sure you want to clear all generated designs? This action cannot be undone."
              w = (true, w')
            /\ generatedDesigns s' = [])
           \/ (confirm api
                 "Are you sure you want to clear all generated designs? This action cannot be undone."
                 w = (false, w')
               /\ s' = s)
       | BulkGeneration =>
           (parseIdeas (ideaPrompt s) = []
            /\ generatedDesigns s' = generatedDesigns s)
           \/ (parseIdeas (ideaPrompt s) ≠ []
               /\ generatedDesigns s'
                  = successes (attempts api (parseIdeas (ideaPrompt s)) w))
       | _ =>
           (id <$> generatedDesigns s) `prefix_of` (id <$> generatedDesigns s')
           /\ (generatedDesigns s ≠ [] -> generatedDesigns s' ≠ [])
       end.
Proof.
  assert (keepsRecords c = true ->
          exists w' s', handle api c w s = (inr tt, w', s')
            /\ (id <$> generatedDesigns s) `prefix_of` (id <$> generatedDesigns s')
            /\ (generatedDesigns s ≠ [] -> generatedDesigns s' ≠ [])) as Hkeep.
  { intros Hk. destruct (handle_keeps api c w s Hk) as (w' & s' & extra & E & H).
    exists w', s'. split; [done|].
    assert (id <$> generatedDesigns s'
            = (id <$> generatedDesigns s)
              ++ ((fun p : string * string * string => p.1.1) <$> extra)) as Hids.
    { apply (f_equal (fmap (fun p : string * string * string => p.1.1))) in H.
      rewrite fmap_app, <- !list_fmap_compose in H. exact H. }
    split; [rewrite Hids; by apply prefix_app_r|].
    intros Hne Hnil. rewrite Hnil in Hids. symmetry in Hids.
    apply app_eq_nil in Hids as [Hids _]. apply fmap_nil_inv in Hids. done. }
  destruct c; try (by apply Hkeep).
  - cbn [handle].
    destruct (handleBulkGeneration_store w s) as (w' & s' & E & Hnil & Hcons).
    exists w', s'. split; [done|].
    destruct (parseIdeas (ideaPrompt s)) as [|idea ideas]; [left|right].
    + by split; [|apply Hnil].
    + by split; [|apply Hcons].
  - cbn [handle]. unfold handleClearSession. task_unfold.
    destruct (confirm api _ w) as [confirmed w1] eqn:E.
    destruct confirmed; eexists _, _; (split; [reflexivity|]);
      [left|right]; by split.
Qed.

(** C2.  When the gateways fail for the idea at position [k] of the batch
    and succeed for every other one, the ideas being attempted one after
    the other (each attempt starts in the world the previous one left),
    bulk generation returns normally and the store holds exactly the
    designs of the other attempts, in the order of their ideas: the
    failure stops nothing. *)
Theorem bulk_generation_skips_failed_idea w s ideas k e :
  parseIdeas (ideaPrompt s) = ideas ->
  attempts api ideas w !! k = Some (inl e) ->
  (forall j, j ≠ k -> j < length ideas ->
     exists d, attempts api ideas w !! j = Some (inr d)) ->
  exists w' s',
    handleBulkGeneration api w s = (inr tt, w', s')
    /\ inr <$> generatedDesigns s' = delete k (attempts api ideas w)
    /\ originalIdea <$> generatedDesigns s' = delete k ideas
    /\ length (generatedDesigns s') = length ideas - 1
    /\ isLoading s' = false.
Proof.
  intros Hideas Hk Hothers.
  pose proof (attempts_ideas api ideas w) as Hatt.
  pose proof (Forall2_length _ _ _ Hatt) as Hlen.
  assert (ideas ≠ []) as Hne.
  { intros ->. by cbn in Hk. }
  destruct (handleBulkGeneration_store w s) as (w' & s' & E & _ & Hcons).
  rewrite Hideas in Hcons. destruct (Hcons Hne) as [Hs Hl].
  exists w', s'. split; [done|].
  destruct (successes_delete _ _ Hatt k e Hk) as [H1 H2].
  { intros j Hj Hlt. apply Hothers; [done|lia]. }
  rewrite Hs. split; [done|]. split; [done|]. split; [|done].
  rewrite <- (length_fmap originalIdea), H2, length_delete; [done|].
  apply lookup_lt_is_Some. rewrite <- Hlen. apply lookup_lt_is_Some. eauto.
Qed.

(** C5.  Through any run of generations from a suggestion, background
    removals, upscalings, remixes and reverts, the Design at each position
    of the store stays at that position with the id, the
    [originalImageUrl] and the [originalIdea] it had. *)
Theorem originalImageUrl_is_immutable (cs : list Command) w s n d :
  Forall (fun c => keepsRecords c = true) cs ->
  generatedDesigns s !! n = Some d ->
  exists w' s' d',
    handleAll api cs w s = (inr tt, w', s')
    /\ generatedDesigns s' !! n = Some d'
    /\ id d' = id d
    /\ originalImageUrl d' = originalImageUrl d
    /\ originalIdea d' = originalIdea d.
Proof.
  intros Hcs Hn.
  destruct (handleAll_keeps api cs w s Hcs) as (w' & s' & extra & E & H).
  assert ((immutablePart <$> generatedDesigns s') !! n = Some (immutablePart d))
    as Hn'.
  { rewrite H. apply lookup_app_l_Some. by rewrite list_lookup_fmap, Hn. }
  rewrite list_lookup_fmap in Hn'.
  destruct (generatedDesigns s' !! n) as [d'|] eqn:Hd'; [|done].
  exists w', s', d'. split; [done|]. split; [done|].
  unfold immutablePart in Hn'. cbn in Hn'. by simplify_eq.
Qed.

(** C3, as the code has it.  In a store whose ids are distinct, take the
    Design with id [i], apply any run of transforms, then revert it.  The
    revert returns normally; afterwards the Design shows its original
    image, which is still the one it was created with.  Both flags are
    cleared when the image differed from the original at the time of the
    revert; when it did not, the revert is a no-op and the flags stay as
    the transforms left them. *)
Theorem revert_restores_original (ts : list Command) i w s d :
  NoDup (id <$> generatedDesigns s) ->
  d ∈ generatedDesigns s -> id d = i ->
  Forall (fun c => isTransform c = true) ts ->
  exists w1 s1 d1 w2 s2 d2,
    handleAll api ts w s = (inr tt, w1, s1)
    /\ d1 ∈ generatedDesigns s1 /\ id d1 = i
    /\ handleRevert i w1 s1 = (inr tt, w2, s2)
    /\ d2 ∈ generatedDesigns s2 /\ id d2 = i
    /\ (forall d', d' ∈ generatedDesigns s2 -> id d' = i -> d' = d2)
    /\ imageUrl d2 = originalImageUrl d2
    /\ originalImageUrl d2 = originalImageUrl d
    /\ (imageUrl d1 ≠ originalImageUrl d1 ->
        bgRemoved d2 = false /\ upscaled d2 = false)
    /\ (imageUrl d1 = originalImageUrl d1 -> w2 = w1 /\ s2 = s1).
Proof.
  intros Hnd Hd Hid Hts.
  destruct (transforms_immutable api ts w s Hts) as (w1 & s1 & E1 & Him1).
  pose proof (immutable_ids _ _ Him1) as Hids1.
  assert (NoDup (id <$> generatedDesigns s1)) as Hnd1 by by rewrite Hids1.
  destruct (find i (generatedDesigns s1)) as [d1|] eqn:Hf1; last first.
  { apply find_None in Hf1. exfalso. apply Hf1. rewrite Hids1, <- Hid.
    by apply list_elem_of_fmap_2. }
  destruct (find_Some _ _ _ Hf1) as [Hd1 Hid1].
  assert (originalImageUrl d1 = originalImageUrl d) as Horig1.
  { assert (immutablePart d = immutablePart d1) as Hp.
    { eapply immutable_same_record; eauto. congruence. }
    unfold immutablePart in Hp. by simplify_eq. }
  exists w1, s1, d1.
  unfold handleRevert. task_unfold. rewrite Hf1. cbn [generatedDesigns].
  destruct (String.eqb (imageUrl d1) (originalImageUrl d1)) eqn:Heqb.
  - apply String.eqb_eq in Heqb.
    exists w1, s1, d1. repeat (split; [done|]).
    split.
    { intros d' Hd' Hid'. pose proof (find_unique _ _ Hnd1 Hd') as F.
      rewrite Hid', Hf1 in F. by simplify_eq. }
    repeat (split; [done|]). done.
  - apply String.eqb_neq in Heqb.
    set (updates := {| p_id := None; p_metadata := None;
                       p_imageUrl := Some (originalImageUrl d1);
                       p_originalImageUrl := None; p_originalIdea := None;
                       p_bgRemoved := Some false; p_upscaled := Some false |}).
    assert (find i (applyUpdates i updates (generatedDesigns s1))
            = Some (spread d1 updates)) as Hf2.
    { rewrite find_applyUpdates, Hf1 by done. cbn. by rewrite decide_True. }
    destruct (find_Some _ _ _ Hf2) as [Hd2 Hid2].
    eexists w1, _, (spread d1 updates). split; [done|].
    split; [done|]. split; [done|]. split; [reflexivity|].
    cbn [generatedDesigns]. split; [done|]. split; [done|].
    split.
    { intros d' Hd' Hid'.
      assert (NoDup (id <$> applyUpdates i updates (generatedDesigns s1))) as Hnd2.
      { by rewrite applyUpdates_ids. }
      pose proof (find_unique _ _ Hnd2 Hd') as F.
      rewrite Hid', Hf2 in F. by simplify_eq. }
    cbn. repeat (split; [done|]). done.
Qed.


End Properties.

(** ** Export and resolution check *)

(** C9.  The export hands the spreadsheet library one row per Design, in
  store order; the row of the Design at position [n] has the columns
  Title, Description, Tags, Type, Color and OriginalIdea, in that order,
  filled from that Design, the last one with its [originalIdea] as
  stored. *)
Theorem worksheetData_one_row_per_design (designs : list DesignData) n d :
designs !! n = Some d ->
length (worksheetData designs) = length designs
/\ exists row,
     worksheetData designs !! n = Some row
     /\ columns row
        = ["Title"; "Description"; "Tags"; "Type"; "Color"; "OriginalIdea"]
     /\ cell "Title" row = Some (Title (metadata d))
     /\ cell "Description" row = Some (Description (metadata d))
     /\ cell "Tags" row = Some (Tags (metadata d))
     /\ cell "Type" row = Some (Type_ (metadata d))
     /\ cell "Color" row = Some (Color (metadata d))
     /\ cell "OriginalIdea" row = Some (originalIdea d).
Proof.
intros Hn. unfold worksheetData. split; [by rewrite length_fmap|].
eexists. rewrite list_lookup_fmap, Hn. split; [reflexivity|].
repeat split.
Qed.

Lemma statusPass_not_statusWarn : statusPass ≠ statusWarn.
Proof. discriminate. Qed.







Section UploadFacts.

Context {World File Inspiration : Type}.
Variable blobToBase64 : File -> World -> (Thrown + string) * World.
Variable fileType : File -> string.
Variable createObjectURL : File -> World -> string * World.
Variable loadImage : string -> World -> (N * N) * World.
Variable analyzeImageForInspiration :
  string -> string -> World -> (Thrown + Inspiration) * World.
Variable analyzeImageForPrint :
  string -> string -> N -> N -> World
  -> (Thrown + gmap string PrintReportItem) * World.
Variable firstRejectsFirst : World -> bool.


End UploadFacts.


(** The export of the direct service has no OriginalIdea column. *)
Lemma direct_export_columns (designs : list Metadata) n row :
  DirectService.data designs !! n = Some row ->
  columns row
  = ["Image Path"; "Language"; "Title"; "Description"; "Tags"; "Type"; "Color"]
  /\ cell "OriginalIdea" row = None.
Proof.
  unfold DirectService.data. rewrite list_lookup_imap.
  destruct (designs !! n) as [item|]; cbn; [|done].
  by intros ?; simplify_eq.
Qed.

(** ** Concrete runs against the scripted gateway *)

Module Runs.

Import Script.

(** C1 as the specification states it fails: with one Design in the store
    and a text area holding one idea, bulk generation (not the clear
    command) drops the Design; here the gateway refuses the idea and the
    store ends up empty. *)
Lemma bulk_generation_drops_existing_designs :
  BulkGeneration ≠ ClearSession
  /\ design0 ∈ generatedDesigns (state "broken" [design0])
  /\ storeAfter (handle (api cutout true) BulkGeneration) 0
       (state "broken" [design0]) = [].
Proof.
  split; [discriminate|]. split; [apply list_elem_of_here|]. by vm_compute.
Qed.

Lemma only_batch_and_clear_drop_designs_witness :
  (generatedDesigns store2 ≠ [])
  /\ exists w' s',
       handle (api cutout true) ClearSession 0 store2 = (inr tt, w', s')
       /\ generatedDesigns s' = [].
Proof.
  split; [discriminate|].
  destruct (only_batch_and_clear_drop_designs (api cutout true) ClearSession 0 store2)
    as (w' & s' & Hrun & [[_ Hstore]|[Hno _]]); [|discriminate].
  exists w', s'. by split.
Defined.

Lemma bulk_generation_skips_failed_idea_witness :
  parseIdeas (ideaPrompt batch) = ["a cat"; "broken"; "a dog"]
  /\ attempts (api cutout true) ["a cat"; "broken"; "a dog"] 0 !! 1
     = Some (inl (ErrorObject "Request failed with status 500"))
  /\ exists w' s',
       handleBulkGeneration (api cutout true) 0 batch = (inr tt, w', s')
       /\ inr <$> generatedDesigns s'
          = delete 1 (attempts (api cutout true) ["a cat"; "broken"; "a dog"] 0)
       /\ originalIdea <$> generatedDesigns s'
          = delete 1 ["a cat"; "broken"; "a dog"]
       /\ length (generatedDesigns s') = length ["a cat"; "broken"; "a dog"] - 1
       /\ isLoading s' = false.
Proof.
  split; [by vm_compute|]. split; [by vm_compute|].
  apply (bulk_generation_skips_failed_idea (api cutout true) 0 batch
           ["a cat"; "broken"; "a dog"] 1
           (ErrorObject "Request failed with status 500")).
  - by vm_compute.
  - by vm_compute.
  - intros [|[|[|j]]] Hne Hlt; [| done | | cbn in Hlt; lia];
      eexists; vm_compute; reflexivity.
Defined.

(** C3 as the specification states it fails: when the background-removal
    gateway answers with the very image it was sent, the Design is marked
    [bgRemoved] while its image still equals the original, and the revert
    that follows is a no-op that leaves the mark. *)
Lemma revert_after_identical_answer_keeps_flag :
  (transformAttempt (api unchanged true) (removeBackground (api unchanged true))
     (imageUrl design0) 0).1 = inr (imageUrl design0)
  /\ bgRemoved <$> storeAfter
       (handleAll (api unchanged true) [RemoveBackground "d0"; Revert "d0"]) 0
       (state "" [design0]) = [true].
Proof. split; by vm_compute. Qed.

Lemma noDup_store2 : NoDup (id <$> generatedDesigns store2).
Proof.
  cbn. apply NoDup_cons. split; [|apply NoDup_singleton].
  intros H. apply list_elem_of_singleton in H. discriminate.
Defined.

Lemma revert_restores_original_witness :
  NoDup (id <$> generatedDesigns store2)
  /\ design0 ∈ generatedDesigns store2
  /\ Forall (fun c => isTransform c = true) [RemoveBackground "d0"; Upscale "d0"]
  /\ exists w1 s1 d1 w2 s2 d2,
       handleAll (api cutout true) [RemoveBackground "d0"; Upscale "d0"] 0 store2
       = (inr tt, w1, s1)
       /\ d1 ∈ generatedDesigns s1 /\ id d1 = "d0"
       /\ handleRevert "d0" w1 s1 = (inr tt, w2, s2)
       /\ d2 ∈ generatedDesigns s2 /\ id d2 = "d0"
       /\ (forall d', d' ∈ generatedDesigns s2 -> id d' = "d0" -> d' = d2)
       /\ imageUrl d2 = originalImageUrl d2
       /\ originalImageUrl d2 = originalImageUrl design0
       /\ (imageUrl d1 ≠ originalImageUrl d1 ->
           bgRemoved d2 = false /\ upscaled d2 = false)
       /\ (imageUrl d1 = originalImageUrl d1 -> w2 = w1 /\ s2 = s1).
Proof.
  split; [exact noDup_store2|]. split; [apply list_elem_of_here|].
  split; [by repeat constructor|].
  apply (revert_restores_original (api cutout true)
           [RemoveBackground "d0"; Upscale "d0"] "d0" 0 store2 design0).
  - exact noDup_store2.
  - apply list_elem_of_here.
  - reflexivity.
  - by repeat constructor.
Defined.

Lemma remove_background_twice_witness :
  (forall d, find "d0" (generatedDesigns store2) = Some d -> bgRemoved d = false ->
     exists url,
       (transformAttempt (api cutout true) (removeBackground (api cutout true))
          (imageUrl d) 0).1 = inr url)
  /\ exists w1 s1,
       handleRemoveBackground (api cutout true) "d0" 0 store2 = (inr tt, w1, s1)
       /\ (forall d1, find "d0" (generatedDesigns s1) = Some d1 -> bgRemoved d1 = true)
       /\ handleRemoveBackground (api cutout true) "d0" w1 s1 = (inr tt, w1, s1).
Proof.
  assert (forall d, find "d0" (generatedDesigns store2) = Some d ->
            bgRemoved d = false ->
            exists url,
              (transformAttempt (api cutout true) (removeBackground (api cutout true))
                 (imageUrl d) 0).1 = inr url) as Hok.
  { intros d _ _. eexists. reflexivity. }
  split; [exact Hok|].
  exact (remove_background_twice (api cutout true) "d0" 0 store2 Hok).
Defined.

Lemma originalImageUrl_is_immutable_witness :
  Forall (fun c => keepsRecords c = true)
    [RemoveBackground "d0"; Upscale "d0"; Remix "d0"; Revert "d0";
     GenerateFromIdea "a fox"]
  /\ generatedDesigns store2 !! 0 = Some design0
  /\ exists w' s' d',
       handleAll (api cutout true)
         [RemoveBackground "d0"; Upscale "d0"; Remix "d0"; Revert "d0";
          GenerateFromIdea "a fox"] 0 store2 = (inr tt, w', s')
       /\ generatedDesigns s' !! 0 = Some d'
       /\ id d' = id design0
       /\ originalImageUrl d' = originalImageUrl design0
       /\ originalIdea d' = originalIdea design0.
Proof.
  split; [by repeat constructor|]. split; [reflexivity|].
  apply (originalImageUrl_is_immutable (api cutout true)
           [RemoveBackground "d0"; Upscale "d0"; Remix "d0"; Revert "d0";
            GenerateFromIdea "a fox"] 0 store2 0 design0).
  - by repeat constructor.
  - reflexivity.
Defined.

Lemma gateway_failure_leaves_store_witness :
  gatewayFails (api cutout true) (GenerateFromIdea "broken") 0 store2
  /\ exists w' s',
       handle (api cutout true) (GenerateFromIdea "broken") 0 store2
       = (inr tt, w', s')
       /\ generatedDesigns s' = generatedDesigns store2.
Proof.
  assert (gatewayFails (api cutout true) (GenerateFromIdea "broken") 0 store2)
    as Hfails.
  { exists (ErrorObject "Request failed with status 500"). reflexivity. }
  split; [exact Hfails|].
  exact (gateway_failure_leaves_store (api cutout true)
           (GenerateFromIdea "broken") 0 store2 Hfails).
Defined.





Lemma worksheetData_one_row_per_design_witness :
  [design0; design1] !! 1 = Some design1
  /\ length (worksheetData [design0; design1]) = length [design0; design1]
  /\ exists row,
       worksheetData [design0; design1] !! 1 = Some row
       /\ columns row
          = ["Title"; "Description"; "Tags"; "Type"; "Color"; "OriginalIdea"]
       /\ cell "Title" row = Some (Title (metadata design1))
       /\ cell "Description" row = Some (Description (metadata design1))
       /\ cell "Tags" row = Some (Tags (metadata design1))
       /\ cell "Type" row = Some (Type_ (metadata design1))
       /\ cell "Color" row = Some (Color (metadata design1))
       /\ cell "OriginalIdea" row = Some (originalIdea design1).
Proof.
  split; [reflexivity|].
  apply (worksheetData_one_row_per_design [design0; design1] 1 design1).
  reflexivity.
Defined.

Lemma unknown_id_is_ignored_witness :
  ("d7" ∉ id <$> generatedDesigns store2)
  /\ Remix "d7" ∈ [RemoveBackground "d7"; Upscale "d7"; Remix "d7"; Revert "d7"]
  /\ handle (api cutout true) (Remix "d7") 0 store2 = (inr tt, 0, store2).
Proof.
  assert ("d7" ∉ id <$> generatedDesigns store2) as Habsent.
  { cbn. intros H. apply elem_of_cons in H as [H|H]; [discriminate|].
    apply list_elem_of_singleton in H. discriminate. }
  assert (Remix "d7" ∈ [RemoveBackground "d7"; Upscale "d7"; Remix "d7"; Revert "d7"])
    as Hin.
  { apply list_elem_of_further, list_elem_of_further, list_elem_of_here. }
  split; [exact Habsent|]. split; [exact Hin|].
  exact (unknown_id_is_ignored (api cutout true) "d7" (Remix "d7") 0 store2
           Habsent Hin).
Defined.

End Runs.

(** ** The text area: lines, white space and ideas *)

Section TextFacts.

Implicit Types (l p : list ascii) (s : string) (b : bool).

Lemma dropWhiteSpace_unfold b c1 l1 :
  JS.dropWhiteSpace b (c1 :: l1) =
  if JS.isWhiteSpace1 c1 then JS.dropWhiteSpace b l1
  else match l1 with
       | [] => c1 :: l1
       | c2 :: l2 =>
           if (if b then JS.isWhiteSpace2 c2 c1 else JS.isWhiteSpace2 c1 c2)
           then JS.dropWhiteSpace b l2
           else match l2 with
                | [] => c1 :: l1
                | c3 :: l3 =>
                    if (if b then JS.isWhiteSpace3 c3 c2 c1
                        else JS.isWhiteSpace3 c1 c2 c3)
                    then JS.dropWhiteSpace b l3
                    else c1 :: l1
                end
       end.
Proof. by destruct l1 as [|c2 [|c3 l3]]. Qed.

(** One step of [dropWhiteSpace]: nothing to drop, or a white-space
    character of one to three bytes goes and the rest is looked at. *)
Lemma dropWhiteSpace_step b l :
  JS.dropWhiteSpace b l = l
  \/ exists p l', l = p ++ l' /\ p ≠ []
       /\ JS.dropWhiteSpace b l = JS.dropWhiteSpace b l'.
Proof.
  destruct l as [|c1 l1]; [by left|]. rewrite dropWhiteSpace_unfold.
  destruct (JS.isWhiteSpace1 c1); [right; by exists [c1], l1|].
  destruct l1 as [|c2 l2]; [by left|].
  destruct (if b then JS.isWhiteSpace2 c2 c1 else _);
    [right; by exists [c1; c2], l2|].
  destruct l2 as [|c3 l3]; [by left|].
  destruct (if b then JS.isWhiteSpace3 c3 c2 c1 else _); [|by left].
  right. by exists [c1; c2; c3], l3.
Qed.

(** What comes out is the end of what went in. *)
Lemma dropWhiteSpace_suffix b l : JS.dropWhiteSpace b l `suffix_of` l.
Proof.
  induction l as [l IH] using (induction_ltof1 _ (@length ascii)).
  unfold ltof in IH.
  destruct (dropWhiteSpace_step b l) as [->|(p & l' & -> & Hp & ->)]; [done|].
  etrans; [apply IH|by apply suffix_app_r].
  rewrite length_app. destruct p; [done|cbn; lia].
Qed.

(** And it starts with no white space: dropping again changes nothing. *)
Lemma dropWhiteSpace_fixed b l :
  JS.dropWhiteSpace b (JS.dropWhiteSpace b l) = JS.dropWhiteSpace b l.
Proof.
  induction l as [l IH] using (induction_ltof1 _ (@length ascii)).
  unfold ltof in IH.
  destruct (dropWhiteSpace_step b l) as [H|(p & l' & -> & Hp & H)].
  - by rewrite !H.
  - rewrite H. apply IH. rewrite length_app. destruct p; [done|cbn; lia].
Qed.

(** A list that starts with no white space: its first bytes say so. *)
Lemma dropWhiteSpace_fixed_inv b l :
  JS.dropWhiteSpace b l = l ->
  match l with
  | [] => True
  | c1 :: l1 =>
      JS.isWhiteSpace1 c1 = false
      /\ match l1 with
         | [] => True
         | c2 :: l2 =>
             (if b then JS.isWhiteSpace2 c2 c1 else JS.isWhiteSpace2 c1 c2) = false
             /\ match l2 with
                | [] => True
                | c3 :: _ =>
                    (if b then JS.isWhiteSpace3 c3 c2 c1
                     else JS.isWhiteSpace3 c1 c2 c3) = false
                end
         end
  end.
Proof.
  assert (forall l' l0, JS.dropWhiteSpace b l' = l0 ->
            length l' < length l0 -> False) as Hshort.
  { intros l' l0 <- Hlt. pose proof (dropWhiteSpace_suffix b l') as Hs.
    apply suffix_length in Hs. lia. }
  destruct l as [|c1 l1]; [done|]. rewrite dropWhiteSpace_unfold.
  destruct (JS.isWhiteSpace1 c1).
  { intros H. destruct (Hshort _ _ H). cbn; lia. }
  destruct l1 as [|c2 l2]; [done|].
  destruct (if b then JS.isWhiteSpace2 c2 c1 else _).
  { intros H. destruct (Hshort _ _ H). cbn; lia. }
  destruct l2 as [|c3 l3]; [done|].
  destruct (if b then JS.isWhiteSpace3 c3 c2 c1 else _); [|done].
  intros H. destruct (Hshort _ _ H). cbn; lia.
Qed.

(** Cutting the end off such a list leaves such a list. *)
Lemma dropWhiteSpace_prefix_fixed b l p :
  JS.dropWhiteSpace b l = l -> p `prefix_of` l -> JS.dropWhiteSpace b p = p.
Proof.
  intros Hl [k ->]. apply dropWhiteSpace_fixed_inv in Hl.
  destruct p as [|c1 p1]; [done|]. rewrite dropWhiteSpace_unfold.
  cbn in Hl. destruct Hl as [-> Hl].
  destruct p1 as [|c2 p2]; [done|]. cbn in Hl. destruct Hl as [-> Hl].
  destruct p2 as [|c3 p3]; [done|]. cbn in Hl. by rewrite Hl.
Qed.

(** [trim] is idempotent. *)
Lemma trim_trim s : JS.trim (JS.trim s) = JS.trim s.
Proof.
  unfold JS.trim. rewrite list_ascii_of_string_of_list_ascii.
  set (a := JS.dropWhiteSpace false (list_ascii_of_string s)).
  set (c := JS.dropWhiteSpace true (rev a)).
  assert (JS.dropWhiteSpace false (rev c) = rev c) as ->.
  { apply (dropWhiteSpace_prefix_fixed false a).
    - apply dropWhiteSpace_fixed.
    - destruct (dropWhiteSpace_suffix true (rev a)) as [k Hk]. fold c in Hk.
      exists (rev k). apply (f_equal (@rev ascii)) in Hk.
      by rewrite rev_involutive, rev_app_distr in Hk. }
  rewrite rev_involutive. unfold c. by rewrite dropWhiteSpace_fixed.
Qed.

(** [trim] only removes bytes. *)
Lemma trim_bytes s c : c ∈ Text.bytes (JS.trim s) -> c ∈ Text.bytes s.
Proof.
  unfold Text.bytes, JS.trim. rewrite list_ascii_of_string_of_list_ascii.
  intros H. apply list_elem_of_In, in_rev, list_elem_of_In in H.
  destruct (dropWhiteSpace_suffix true
              (rev (JS.dropWhiteSpace false (list_ascii_of_string s)))) as [k Hk].
  assert (c ∈ rev (JS.dropWhiteSpace false (list_ascii_of_string s))) as H'.
  { rewrite Hk. apply elem_of_app. by right. }
  apply list_elem_of_In, in_rev, list_elem_of_In in H'.
  destruct (dropWhiteSpace_suffix false (list_ascii_of_string s)) as [k' Hk'].
  rewrite Hk'. apply elem_of_app. by right.
Qed.

Lemma append_assoc s1 s2 s3 : (s1 +:+ s2) +:+ s3 = s1 +:+ s2 +:+ s3.
Proof.
  induction s1 as [|c s1 IH]; [done|].
  change (String c ((s1 +:+ s2) +:+ s3) = String c (s1 +:+ s2 +:+ s3)).
  by rewrite IH.
Qed.

Lemma split_newline_nonempty s : JS.split_newline s ≠ [].
Proof.
  destruct s as [|c s]; cbn; [done|].
  destruct (Ascii.eqb c "010"); [done|]. by destruct (JS.split_newline s).
Qed.

(** No piece of a split holds a line feed. *)
Lemma split_newline_pieces s piece :
  piece ∈ JS.split_newline s -> "010"%char ∉ Text.bytes piece.
Proof.
  revert piece. induction s as [|c s IH]; intros piece; cbn.
  - intros H. apply list_elem_of_singleton in H as ->. cbn. apply not_elem_of_nil.
  - destruct (Ascii.eqb c "010") eqn:E.
    + intros H. apply elem_of_cons in H as [->|H]; [apply not_elem_of_nil|by apply IH].
    + destruct (JS.split_newline s) as [|first rest] eqn:Es.
      * intros H. apply list_elem_of_singleton in H as ->. cbn.
        intros H. apply list_elem_of_singleton in H as <-.
        by rewrite Ascii.eqb_refl in E.
      * intros H. apply elem_of_cons in H as [->|H].
        -- cbn. intros H. apply elem_of_cons in H as [<-|H].
           ++ by rewrite Ascii.eqb_refl in E.
           ++ eapply IH; [|exact H]. apply list_elem_of_here.
        -- apply IH. by apply list_elem_of_further.
Qed.

(** Splitting two texts joined by a line feed gives the lines of the first
    followed by the lines of the second. *)
Lemma split_newline_join s1 s2 :
  JS.split_newline (s1 +:+ Text.newline +:+ s2)
  = JS.split_newline s1 ++ JS.split_newline s2.
Proof.
  induction s1 as [|c s1 IH]; [done|].
  change (String c s1 +:+ Text.newline +:+ s2)
    with (String c (s1 +:+ Text.newline +:+ s2)).
  cbn [JS.split_newline].
  destruct (Ascii.eqb c "010"); [by rewrite IH|].
  rewrite IH. pose proof (split_newline_nonempty s1).
  by destruct (JS.split_newline s1).
Qed.

Lemma parseIdeas_join s1 s2 :
  parseIdeas (s1 +:+ Text.newline +:+ s2) = parseIdeas s1 ++ parseIdeas s2.
Proof.
  unfold parseIdeas. by rewrite split_newline_join, fmap_app, List.filter_app.
Qed.

Lemma truthy_nonempty s : JS.truthy s = true <-> s ≠ EmptyString.
Proof. by destruct s. Qed.

(** X1.  Every idea bulk generation works on is a non-empty line of the
    text area, already trimmed, with no line feed inside. *)
Theorem parseIdeas_clean (prompt idea : string) :
  idea ∈ parseIdeas prompt ->
  idea ≠ EmptyString
  /\ JS.trim idea = idea
  /\ ("010"%char ∉ Text.bytes idea)
  /\ exists line, line ∈ JS.split_newline prompt /\ idea = JS.trim line.
Proof.
  unfold parseIdeas. intros H.
  apply list_elem_of_In, List.filter_In in H as [H Ht].
  apply list_elem_of_In, list_elem_of_fmap in H as (line & -> & Hline).
  split; [by apply truthy_nonempty|]. split; [apply trim_trim|].
  split; [|by exists line].
  intros Hnl. apply trim_bytes in Hnl. by apply (split_newline_pieces _ _ Hline).
Qed.

(** X2.  Ideas survive the text area: the ideas of two texts joined by a
    line feed are those of the first followed by those of the second, and
    writing the ideas back one per line and parsing again gives the same
    ideas. *)
Theorem parseIdeas_stable (prompt : string) :
  (forall more, parseIdeas (prompt +:+ Text.newline +:+ more)
                = parseIdeas prompt ++ parseIdeas more)
  /\ parseIdeas (Text.unlines (parseIdeas prompt)) = parseIdeas prompt.
Proof.
  split; [intros more; apply parseIdeas_join|].
  assert (forall ideas, Forall (fun idea => parseIdeas idea = [idea]) ideas ->
            parseIdeas (Text.unlines ideas) = ideas) as Hfold.
  { induction 1 as [|idea ideas Hi _ IH]; [done|].
    cbn [Text.unlines foldr]. rewrite parseIdeas_join. fold (Text.unlines ideas).
    by rewrite Hi, IH. }
  apply Hfold. apply Forall_forall. intros idea Hin.
  destruct (parseIdeas_clean prompt idea Hin) as (Hne & Htrim & Hnl & _).
  unfold parseIdeas.
  assert (JS.split_newline idea = [idea]) as ->.
  { clear -Hnl. induction idea as [|c idea IH]; [done|]. cbn in *.
    destruct (Ascii.eqb c "010") eqn:E.
    - apply Ascii.eqb_eq in E as ->. exfalso. apply Hnl. apply list_elem_of_here.
    - rewrite IH; [done|]. intros H. apply Hnl. by apply list_elem_of_further. }
  cbn. rewrite Htrim. apply truthy_nonempty in Hne. by rewrite Hne.
Qed.

End TextFacts.

(** ** More about the handlers *)

Section SuggestionFacts.

Context {World : Type}.
Variable suggestIdea : World -> (Thrown + string) * World.

Implicit Types (w : World) (s : AppState).

(** X3.  A suggested idea is added to the text area as a line of its own:
    the ideas already there are kept, in order, and those of the
    suggestion follow.  Nothing else changes but the loading indicator,
    which ends up cleared. *)
Theorem suggestion_appends_ideas w s idea w' :
  suggestIdea w = (inr idea, w') ->
  idea ≠ EmptyString ->
  exists s',
    handleSuggestIdea suggestIdea w s = (inr tt, w', s')
    /\ parseIdeas (ideaPrompt s') = parseIdeas (ideaPrompt s) ++ parseIdeas idea
    /\ generatedDesigns s' = generatedDesigns s
    /\ message s' = message s
    /\ isLoading s' = false.
Proof.
  intros Hcall Hne. apply truthy_nonempty in Hne.
  unfold handleSuggestIdea, tryFinally, updateIdeaPrompt, throw. task_unfold.
  rewrite Hcall, Hne. eexists. split; [reflexivity|]. cbn.
  split; [|done]. unfold appendIdea.
  destruct (ideaPrompt s) as [|c prompt]; [done|].
  cbn [JS.truthy]. rewrite <- parseIdeas_join.
  by rewrite append_assoc.
Qed.

(** X4.  When the suggestion fails or comes back empty, the text area and
    the store are left alone, an error is shown (the gateway's own message
    when it threw an [Error]) and the loading indicator is cleared. *)
Theorem suggestion_failure_is_reported w s r w' :
  suggestIdea w = (r, w') ->
  (forall idea, r = inr idea -> idea = EmptyString) ->
  exists s',
    handleSuggestIdea suggestIdea w s = (inr tt, w', s')
    /\ ideaPrompt s' = ideaPrompt s
    /\ generatedDesigns s' = generatedDesigns s
    /\ isLoading s' = false
    /\ message s'
       = Some {| text := match r with
                         | inl e => messageOf e "An unknown error occurred."
                         | inr _ => "Received an empty idea."
                         end;
                 isError := true |}.
Proof.
  intros Hcall Hempty.
  unfold handleSuggestIdea, tryFinally, updateIdeaPrompt, throw. task_unfold.
  rewrite Hcall. destruct r as [e|idea].
  - eexists. by split; [reflexivity|].
  - rewrite (Hempty idea eq_refl). cbn. eexists. by split; [reflexivity|].
Qed.

End SuggestionFacts.

Section HandlerExtras.

Context {World Blob : Type}.
Variable api : Api World Blob.

Implicit Types (w : World) (s : AppState) (i : string) (c : Command)
  (d : DesignData).

(** X5.  No command lets an exception escape: whatever the gateways do,
    every handler returns normally. *)
Theorem handlers_never_throw c w s :
  exists w' s', handle api c w s = (inr tt, w', s').
Proof.
  destruct (keepsRecords c) eqn:Hk.
  - destruct (handle_keeps api c w s Hk) as (w' & s' & _ & E & _). eauto.
  - destruct c; try discriminate; cbn [handle].
    + destruct (handleBulkGeneration_store api w s) as (w' & s' & E & _). eauto.
    + task_unfold. destruct (confirm api _ w) as [[] w']; eauto.
Qed.

(** X6.  The loading indicator never stays on: it is cleared at the end of
    a generation from a suggestion and of a bulk generation that had ideas
    to work on, whatever the gateways answered; a bulk generation with no
    idea does not touch it. *)
Theorem loading_indicator_is_cleared w s :
  (forall description w' s',
     handleGenerateFromIdea api description w s = (inr tt, w', s') ->
     isLoading s' = false)
  /\ (forall w' s',
        handleBulkGeneration api w s = (inr tt, w', s') ->
        isLoading s' = if decide (parseIdeas (ideaPrompt s) = []) then isLoading s
                       else false).
Proof.
  split.
  - intros description w' s'. unfold handleGenerateFromIdea. task_unfold.
    match goal with |- context [generateSingleDesign api description w ?s0] =>
      destruct (generateSingleDesign_total api description w s0)
        as (r & w1 & s1 & -> & _) end.
    destruct r; by intros ?; simplify_eq.
  - intros w' s' E.
    destruct (handleBulkGeneration_store api w s) as (w1 & s1 & E1 & Hnil & Hcons).
    rewrite E in E1. simplify_eq. case_decide as Hd.
    + revert E. unfold handleBulkGeneration. task_unfold. rewrite Hd. cbn.
      by intros ?; simplify_eq.
    + by destruct (Hcons Hd).
Qed.

(** X7.  When the gateway of a transform fails, the user is shown the
    gateway's own error message (or a fixed text when what was thrown is
    not an [Error]), and nothing else in the component state changes. *)
Theorem transform_failure_message (remove : bool) i w s d e w' :
  find i (generatedDesigns s) = Some d ->
  (if remove then bgRemoved d else upscaled d) = false ->
  transformAttempt api
    (if remove then removeBackground api else upscaleImage api) (imageUrl d) w
  = (inl e, w') ->
  handle api (if remove then RemoveBackground i else Upscale i) w s
  = (inr tt, w',
     {| ideaPrompt := ideaPrompt s; generatedDesigns := generatedDesigns s;
        isLoading := isLoading s; loadingMessage := loadingMessage s;
        message :=
          Some {| text := messageOf e (if remove then "BG removal failed."
                                       else "Upscaling failed.");
                  isError := true |} |}).
Proof.
  intros Hf Hflag Hcall. unfold transformAttempt in Hcall.
  destruct remove; cbn [handle]; task_unfold; rewrite Hf, Hflag.
  - destruct (removeBackground api (imageUrl d) w) as [[e1|blob] w1];
      [by simplify_eq|].
    destruct (blobToDataUrl api blob w1) as [[e2|url] w2]; by simplify_eq.
  - destruct (upscaleImage api (imageUrl d) w) as [[e1|blob] w1];
      [by simplify_eq|].
    destruct (blobToDataUrl api blob w1) as [[e2|url] w2]; by simplify_eq.
Qed.

(** X8.  A transform whose gateway answers touches only the designs with
    the given id, and of those only the image and its own flag: the other
    designs, and the metadata, the original image, the idea and the other
    flag of the target, are as before.  The message names the position of
    the target in the grid, counted from one. *)
Theorem transform_success_frame (remove : bool) i w s d url w' :
  find i (generatedDesigns s) = Some d ->
  (if remove then bgRemoved d else upscaled d) = false ->
  transformAttempt api
    (if remove then removeBackground api else upscaleImage api) (imageUrl d) w
  = (inr url, w') ->
  exists s' n,
    handle api (if remove then RemoveBackground i else Upscale i) w s
    = (inr tt, w', s')
    /\ generatedDesigns s'
       = (fun x =>
            if decide (id x = i)
            then {| id := id x; metadata := metadata x; imageUrl := url;
                    originalImageUrl := originalImageUrl x;
                    originalIdea := originalIdea x;
                    bgRemoved := if remove then true else bgRemoved x;
                    upscaled := if remove then upscaled x else true |}
            else x) <$> generatedDesigns s
    /\ generatedDesigns s !! n = Some d
    /\ (forall m x, generatedDesigns s !! m = Some x -> id x = i -> n <= m)
    /\ message s'
       = Some {| text := if remove
                         then "Background removed for design #"
                              +:+ pretty (Z.of_nat n + 1)%Z +:+ "!"
                         else "Design #" +:+ pretty (Z.of_nat n + 1)%Z
                              +:+ " upscaled!";
                 isError := false |}.
Proof.
  intros Hf Hflag Hcall.
  assert (exists n, findIndex i (generatedDesigns s) = Z.of_nat n
            /\ generatedDesigns s !! n = Some d
            /\ forall m x, generatedDesigns s !! m = Some x -> id x = i -> n <= m)
    as (n & Hidx & Hn & Hfirst).
  { unfold find, findIndex in *.
    destruct (list_find _ (generatedDesigns s)) as [[k x]|] eqn:E; [|done].
    cbn in Hf. simplify_eq.
    apply list_find_Some in E as (Hk & Hx & Hmin).
    exists k. split; [done|]. split; [done|].
    intros m x Hm Hid. destruct (decide (k <= m)) as [|Hlt]; [done|].
    exfalso. apply (Hmin m x Hm); [lia|done]. }
  unfold transformAttempt in Hcall.
  destruct remove; cbn [handle]; task_unfold; rewrite Hf, Hflag.
  - destruct (removeBackground api (imageUrl d) w) as [[e1|blob] w1];
      [by simplify_eq|].
    destruct (blobToDataUrl api blob w1) as [[e2|url'] w2]; simplify_eq.
    eexists _, n. split; [reflexivity|]. cbn. rewrite Hidx.
    split; [|done].
    unfold applyUpdates. apply list_fmap_ext. intros k x _.
    by case_decide.
  - destruct (upscaleImage api (imageUrl d) w) as [[e1|blob] w1];
      [by simplify_eq|].
    destruct (blobToDataUrl api blob w1) as [[e2|url'] w2]; simplify_eq.
    eexists _, n. split; [reflexivity|]. cbn. rewrite Hidx.
    split; [|done].
    unfold applyUpdates. apply list_fmap_ext. intros k x _.
    by case_decide.
Qed.

End HandlerExtras.

Section LifecycleExtras.

Context {World Blob : Type}.
Variable api : Api World Blob.

Implicit Types (w : World) (s : AppState) (i : string) (c : Command)
  (d : DesignData).

Lemma sameIdentity_refl d : sameIdentity d d.
Proof. by repeat split. Qed.

Lemma sameIdentity_trans x y z :
  sameIdentity x y -> sameIdentity y z -> sameIdentity x z.
Proof. unfold sameIdentity. intros (?&?&?&?) (?&?&?&?). repeat split; congruence. Qed.

Lemma applyUpdates_sameIdentity i updates (designs : list DesignData) :
  p_id updates = None -> p_metadata updates = None ->
  p_originalImageUrl updates = None -> p_originalIdea updates = None ->
  Forall2 sameIdentity designs (applyUpdates i updates designs).
Proof.
  intros H1 H2 H3 H4. unfold applyUpdates.
  induction designs as [|x designs IH]; [constructor|].
  rewrite fmap_cons. constructor; [|exact IH].
  case_decide; [|apply sameIdentity_refl].
  unfold sameIdentity, spread; cbn. by rewrite H1, H2, H3, H4.
Qed.

Lemma transform_sameIdentity c w s :
  isTransform c = true ->
  exists w' s', handle api c w s = (inr tt, w', s')
    /\ Forall2 sameIdentity (generatedDesigns s) (generatedDesigns s').
Proof.
  assert (Forall2 sameIdentity (generatedDesigns s) (generatedDesigns s)) as Hrefl.
  { apply Forall_Forall2_diag, Forall_forall. intros x _. apply sameIdentity_refl. }
  destruct c as [description| |i|i|i|i|]; try discriminate; intros _; cbn [handle].
  - task_unfold. destruct (find i (generatedDesigns s)) as [d|]; [|by eauto].
    destruct (bgRemoved d); [by eauto|].
    destruct (removeBackground api (imageUrl d) w) as [[e|blob] w1]; [by eauto|].
    destruct (blobToDataUrl api blob w1) as [[e|url] w2]; [by eauto|].
    eexists _, _; split; [reflexivity|]. cbn. by apply applyUpdates_sameIdentity.
  - task_unfold. destruct (find i (generatedDesigns s)) as [d|]; [|by eauto].
    destruct (upscaled d); [by eauto|].
    destruct (upscaleImage api (imageUrl d) w) as [[e|blob] w1]; [by eauto|].
    destruct (blobToDataUrl api blob w1) as [[e|url] w2]; [by eauto|].
    eexists _, _; split; [reflexivity|]. cbn. by apply applyUpdates_sameIdentity.
Qed.

Lemma transforms_sameIdentity (cs : list Command) : forall w s,
  Forall (fun c => isTransform c = true) cs ->
  exists w' s', handleAll api cs w s = (inr tt, w', s')
    /\ Forall2 sameIdentity (generatedDesigns s) (generatedDesigns s').
Proof.
  induction cs as [|c cs IH]; intros w s Hcs.
  { exists w, s. split; [done|].
    apply Forall_Forall2_diag, Forall_forall. intros x _. apply sameIdentity_refl. }
  apply Forall_cons in Hcs as [Hc Hcs].
  destruct (transform_sameIdentity c w s Hc) as (w1 & s1 & E1 & H1).
  destruct (IH w1 s1 Hcs) as (w2 & s2 & E2 & H2).
  exists w2, s2. cbn [handleAll]. unfold bind, tryCatch. rewrite E1, E2.
  split; [done|].
  eapply Forall2_trans; [|exact H1|exact H2].
  intros x y z. apply sameIdentity_trans.
Qed.

(** X9.  Revert is a true undo.  In a store with distinct ids, take a
    design as generation left it, apply any run of transforms (to it or to
    others), and revert it: if its image had changed, the record at its
    position is again exactly the generated one, metadata included. *)
Theorem revert_undoes_transforms (ts : list Command) i w s d n :
  NoDup (id <$> generatedDesigns s) ->
  generatedDesigns s !! n = Some d -> id d = i ->
  pristine d ->
  Forall (fun c => isTransform c = true) ts ->
  exists w1 s1 d1 w2 s2,
    handleAll api ts w s = (inr tt, w1, s1)
    /\ generatedDesigns s1 !! n = Some d1
    /\ handleRevert i w1 s1 = (inr tt, w2, s2)
    /\ (imageUrl d1 ≠ originalImageUrl d1 -> generatedDesigns s2 !! n = Some d).
Proof.
  intros Hnd Hn Hid (Himg & Hbg & Hup) Hts.
  destruct (transforms_sameIdentity ts w s Hts) as (w1 & s1 & E1 & Hsame).
  destruct (Forall2_lookup_l _ _ _ _ _ Hsame Hn) as (d1 & Hn1 & Hd1).
  assert (id <$> generatedDesigns s1 = id <$> generatedDesigns s) as Hids.
  { clear -Hsame. induction Hsame as [|x y l l' Hxy _ IH]; [done|].
    cbn. destruct Hxy as (-> & _). by rewrite IH. }
  assert (NoDup (id <$> generatedDesigns s1)) as Hnd1 by by rewrite Hids.
  destruct Hd1 as (Hid1 & Hmeta & Horig & Hidea).
  assert (find i (generatedDesigns s1) = Some d1) as Hf1.
  { rewrite <- Hid, <- Hid1. apply find_unique; [done|].
    by eapply list_elem_of_lookup_2. }
  exists w1, s1, d1. unfold handleRevert. task_unfold. rewrite Hf1.
  destruct (String.eqb (imageUrl d1) (originalImageUrl d1)) eqn:Heqb.
  - apply String.eqb_eq in Heqb. exists w1, s1. by repeat (split; [done|]).
  - eexists w1, _. split; [done|]. split; [done|]. split; [reflexivity|].
    intros _. cbn [generatedDesigns]. unfold applyUpdates.
    rewrite list_lookup_fmap, Hn1. cbn. rewrite decide_True by congruence.
    f_equal. unfold spread; cbn. destruct d; cbn in *. by subst.
Qed.

(** The designs of a batch are pristine and carry the ideas that
    succeeded, in the order of the ideas. *)
Lemma successes_fresh (ideas : list string) : forall w,
  (originalIdea <$> successes (attempts api ideas w)) `sublist_of` ideas
  /\ Forall pristine (successes (attempts api ideas w)).
Proof.
  induction ideas as [|idea ideas IH]; intros w; [by split|].
  cbn [attempts]. destruct (generationAttempt api idea w) as [[e|d] w1] eqn:E.
  - destruct (IH w1) as [H1 H2]. unfold successes in *. cbn.
    split; [by apply sublist_cons|done].
  - destruct (IH w1) as [H1 H2].
    destruct (generationAttempt_original api idea w d w1 E) as (Ho & Hi & Hb & Hu).
    unfold successes in *. cbn. rewrite Hi.
    split; [by apply sublist_skip|]. apply Forall_cons. split; [|done].
    by repeat split.
Qed.

(** X10.  After a bulk generation that had ideas to work on, the store is
    a fresh batch: its designs carry ideas of the text area, in the order
    of the text area and at most one design per line, and each is as
    generation left it (original image shown, no transform applied). *)
Theorem bulk_batch_is_fresh w s w' s' :
  handleBulkGeneration api w s = (inr tt, w', s') ->
  parseIdeas (ideaPrompt s) ≠ [] ->
  (originalIdea <$> generatedDesigns s') `sublist_of` parseIdeas (ideaPrompt s)
  /\ length (generatedDesigns s') <= length (parseIdeas (ideaPrompt s))
  /\ Forall pristine (generatedDesigns s').
Proof.
  intros E Hne.
  destruct (handleBulkGeneration_store api w s) as (w1 & s1 & E1 & _ & Hcons).
  rewrite E in E1. simplify_eq. destruct (Hcons Hne) as [-> _].
  destruct (successes_fresh (parseIdeas (ideaPrompt s)) w) as [Hsub Hfresh].
  split; [done|]. split; [|done].
  apply sublist_length in Hsub. by rewrite length_fmap in Hsub.
Qed.

End LifecycleExtras.

(** ** File names and the archive *)

Section FileFacts.

Implicit Types (title : string) (design : DesignData).

(** A slug is made of lower-case letters, digits and underscores. *)
Lemma slug_chars title :
  Forall (fun c => Files.slugChar c = true) (Text.bytes (DirectService.slug title)).
Proof.
  unfold Text.bytes.
  induction title as [|c title IH]; [constructor|].
  cbn [DirectService.slug].
  set (n := nat_of_ascii c).
  destruct ((48 <=? n) && (n <=? 57) || (97 <=? n) && (n <=? 122))%nat eqn:E1.
  { cbn. constructor; [|done]. unfold Files.slugChar. fold n. by rewrite E1. }
  destruct ((65 <=? n) && (n <=? 90))%nat eqn:E2.
  { cbn. constructor; [|done].
    apply andb_true_iff in E2 as [H1%Nat.leb_le H2%Nat.leb_le].
    unfold Files.slugChar. rewrite nat_ascii_embedding by lia.
    apply orb_true_iff; left. apply orb_true_iff; right.
    apply andb_true_iff. split; apply Nat.leb_le; lia. }
  destruct (n <? 128)%nat; [cbn; by constructor|].
  destruct (n <? 192)%nat; [done|].
  destruct (n <? 240)%nat; cbn; repeat constructor; done.
Qed.

(** On such characters the slug changes nothing. *)
Lemma slug_fixed title :
  Forall (fun c => Files.slugChar c = true) (Text.bytes title) ->
  DirectService.slug title = title.
Proof.
  unfold Text.bytes. induction title as [|c title IH]; [done|].
  cbn [list_ascii_of_string DirectService.slug]. intros H.
  apply Forall_cons in H as [Hc H]. rewrite (IH H).
  unfold Files.slugChar in Hc. set (n := nat_of_ascii c) in *.
  destruct ((48 <=? n) && (n <=? 57) || (97 <=? n) && (n <=? 122))%nat eqn:E1;
    [done|].
  cbn in Hc. apply Nat.eqb_eq in Hc. rewrite Hc. cbn.
  assert (c = "_"%char) as ->; [|done].
  rewrite <- (ascii_nat_embedding c). fold n. by rewrite Hc.
Qed.

(** The decimal digits of a number are digits. *)
Lemma pretty_N_go_digits (x : N) : forall s,
  Forall (fun c => Files.slugChar c = true) (Text.bytes s) ->
  Forall (fun c => Files.slugChar c = true) (Text.bytes (pretty_N_go x s)).
Proof.
  induction (N.lt_wf_0 x) as [x _ IH]; intros s Hs.
  destruct (decide (x = 0)%N) as [->|Hx]; [by rewrite pretty_N_go_0|].
  rewrite pretty_N_go_step by lia. apply IH; [apply N.div_lt; lia|].
  unfold Text.bytes. cbn. constructor; [|done].
  unfold pretty_N_char. by repeat case_match.
Qed.

Lemma pretty_nat_digits (n : nat) :
  Forall (fun c => Files.slugChar c = true) (Text.bytes (pretty n)).
Proof.
  unfold pretty, pretty_nat, pretty, pretty_N. case_decide.
  - by repeat constructor.
  - by apply pretty_N_go_digits.
Qed.

Lemma bytes_app (s1 s2 : string) :
  Text.bytes (s1 +:+ s2) = Text.bytes s1 ++ Text.bytes s2.
Proof.
  unfold Text.bytes. induction s1 as [|c s1 IH]; [done|].
  change (String c s1 +:+ s2) with (String c (s1 +:+ s2)). cbn. by rewrite IH.
Qed.

(** X11.  The name of every archive entry is a non-empty stem of
    lower-case letters, digits and underscores followed by [.png]: it holds
    no path separator, no space and no upper-case letter, whatever the
    title.  Slugging a stem again gives the same stem. *)
Theorem archive_entry_is_safe design index :
  exists stem,
    Files.archiveEntry design index = stem +:+ ".png"
    /\ stem ≠ EmptyString
    /\ Forall (fun c => Files.slugChar c = true) (Text.bytes stem)
    /\ DirectService.slug stem = stem.
Proof.
  unfold Files.archiveEntry.
  destruct (JS.truthy (DirectService.slug (Title (metadata design)))) eqn:E.
  - eexists. split; [reflexivity|]. split; [by apply truthy_nonempty|].
    split; [apply slug_chars|]. apply slug_fixed, slug_chars.
  - eexists. split; [reflexivity|]. split; [done|].
    assert (Forall (fun c => Files.slugChar c = true)
              (Text.bytes ("design_" +:+ pretty (index + 1)))) as Hc.
    { rewrite bytes_app. apply Forall_app. split; [by repeat constructor|].
      apply pretty_nat_digits. }
    split; [done|]. by apply slug_fixed.
Qed.

(** X12.  Designs without a usable title never share an archive entry:
    their fall-back names differ as soon as their positions do. *)
Theorem untitled_entries_are_distinct design1 design2 index1 index2 :
  DirectService.slug (Title (metadata design1)) = EmptyString ->
  DirectService.slug (Title (metadata design2)) = EmptyString ->
  index1 ≠ index2 ->
  Files.archiveEntry design1 index1 ≠ Files.archiveEntry design2 index2.
Proof.
  intros H1 H2 Hne. unfold Files.archiveEntry. rewrite H1, H2. cbn [JS.truthy].
  intros Heq. apply Hne.
  assert (forall a b c : string, a +:+ c = b +:+ c -> a = b) as Hcancel.
  { intros a b c H. apply (f_equal Text.bytes) in H. rewrite !bytes_app in H.
    apply app_inv_tail in H. unfold Text.bytes in H.
    rewrite <- (string_of_list_ascii_of_string a),
            <- (string_of_list_ascii_of_string b). by rewrite H. }
  apply Hcancel in Heq.
  apply (inj (String.app "design_")) in Heq.
  apply (inj pretty) in Heq. lia.
Qed.

(** X13.  The upload sheet of the direct service points at the files of
    its archive: the Image Path of the row at position [n] is the download
    folder followed by the name of the archive entry written for the design
    at position [n]. *)
Theorem sheet_points_at_archive (designs : list (string * Metadata)) n row :
  DirectService.data designs.*2 !! n = Some row ->
  exists name,
    entryNames designs !! n = Some name
    /\ cell "Image Path" row = Some ("C:\Downloads\" +:+ name).
Proof.
  unfold DirectService.data, entryNames. rewrite !list_lookup_imap.
  rewrite list_lookup_fmap.
  destruct (designs !! n) as [[url item]|]; cbn; [|done].
  intros ?; simplify_eq. eexists. by split; [reflexivity|].
Qed.

End FileFacts.

Section ArchiveFacts.

Context {World Blob Fetched : Type}.
Variable fetch : string -> World -> (Thrown + Fetched) * World.
Variable blobOf : Fetched -> World -> (Thrown + Blob) * World.

Implicit Types (designs : list (string * Metadata)) (archive : gmap string Blob)
  (w : World).

(** The names written from index [i] on. *)
Lemma packLoop_fetchAll designs : forall i archive w,
  packLoop fetch blobOf i designs archive w =
  match fetchAll fetch blobOf designs w with
  | (inl e, w') => (inl e, w')
  | (inr blobs, w') =>
      (inr (foldl (fun z entry => <[entry.1 := entry.2]> z) archive
              (zip (imap (fun j design =>
                            DirectService.fileTitle (Title design.2) (i + j)
                            +:+ ".png") designs) blobs)), w')
  end.
Proof.
  induction designs as [|[url item] designs IH]; intros i archive w; [done|].
  cbn [packLoop fetchAll].
  destruct (fetch url w) as [[e|response] w1]; [done|].
  destruct (blobOf response w1) as [[e|blob] w2]; [done|].
  rewrite IH. destruct (fetchAll fetch blobOf designs w2) as [[e|blobs] w3]; [done|].
  cbn. rewrite Nat.add_0_r. do 4 f_equal.
  apply imap_ext. intros j x _. cbn. do 3 f_equal. lia.
Qed.

Lemma fetchAll_length designs : forall w blobs w',
  fetchAll fetch blobOf designs w = (inr blobs, w') ->
  length blobs = length designs.
Proof.
  induction designs as [|[url item] designs IH]; intros w blobs w';
    cbn [fetchAll]; [by intros ?; simplify_eq|].
  destruct (fetch url w) as [[e|response] w1]; [done|].
  destruct (blobOf response w1) as [[e|blob] w2]; [done|].
  destruct (fetchAll fetch blobOf designs w2) as [[e|blobs'] w3] eqn:E; [done|].
  intros ?; simplify_eq. cbn. f_equal. by eapply IH.
Qed.

(** Entries written one after the other: the last one written under a
    name is the one found there. *)
Lemma foldl_insert_lookup (entries : list (string * Blob)) : forall archive name,
  foldl (fun z entry => <[entry.1 := entry.2]> z) archive entries !! name =
  match list_find (fun entry => entry.1 = name) (reverse entries) with
  | Some (_, entry) => Some entry.2
  | None => archive !! name
  end.
Proof.
  induction entries as [|[k v] entries IH] using rev_ind; intros archive name; [done|].
  rewrite foldl_app, reverse_app. cbn.
  case_decide as Hk; cbn in Hk.
  - subst. by rewrite lookup_insert_eq.
  - rewrite lookup_insert_ne by done. rewrite IH.
    by destruct (list_find _ (reverse entries)) as [[? ?]|].
Qed.

(** X14.  The archive of the direct service is all or nothing and last
    writer wins.  It exists only when every image was fetched; then it has
    exactly the entry names of the designs, at most one entry per design,
    and the entry under a name holds the image of the last design with
    that name. *)
Theorem pack_entries designs w archive w' :
  pack fetch blobOf designs w = (inr archive, w') ->
  exists blobs,
    fetchAll fetch blobOf designs w = (inr blobs, w')
    /\ length blobs = length designs
    /\ (forall name, is_Some (archive !! name) <-> name ∈ entryNames designs)
    /\ size archive <= length designs
    /\ (forall n name blob,
          entryNames designs !! n = Some name ->
          blobs !! n = Some blob ->
          (forall m, n < m -> entryNames designs !! m ≠ Some name) ->
          archive !! name = Some blob).
Proof.
  unfold pack. rewrite packLoop_fetchAll.
  destruct (fetchAll fetch blobOf designs w) as [[e|blobs] w1] eqn:E; [done|].
  intros ?; simplify_eq. exists blobs. split; [done|].
  pose proof (fetchAll_length _ _ _ _ E) as Hlen. split; [done|].
  change (imap _ designs) with (entryNames designs).
  assert (length (entryNames designs) = length designs) as Hnames.
  { unfold entryNames. by rewrite length_imap. }
  set (entries := zip (entryNames designs) blobs).
  assert (entries.*1 = entryNames designs) as Hfst.
  { unfold entries. apply fst_zip. lia. }
  assert (forall name,
            is_Some (foldl (fun z entry => <[entry.1 := entry.2]> z)
                       (∅ : gmap string Blob) entries !! name)
            <-> name ∈ entries.*1) as Hdom.
  { intros name. rewrite foldl_insert_lookup.
    destruct (list_find _ (reverse entries)) as [[k [k' v]]|] eqn:F.
    - apply list_find_Some in F as (Hk & Hname & _). cbn in Hname. subst.
      split; [intros _|by eauto].
      apply list_elem_of_fmap. exists (name, v). split; [done|].
      apply elem_of_reverse. by eapply list_elem_of_lookup_2.
    - rewrite lookup_empty. split; [by intros [? ?]|].
      intros Hin. apply list_elem_of_fmap in Hin as ([k v] & -> & Hin).
      apply list_find_None in F. rewrite Forall_forall in F.
      exfalso. apply (F (k, v)); [by apply elem_of_reverse|done]. }
  split. { intros name. by rewrite Hdom, Hfst. }
  split.
  { rewrite <- Hnames, <- Hfst, length_fmap.
    clear. induction entries as [|[k v] entries IH] using rev_ind; [done|].
    rewrite foldl_app, length_app. cbn.
    destruct (foldl (fun z entry => <[entry.1 := entry.2]> z)
                (∅ : gmap string Blob) entries !! k) eqn:Hk.
    - rewrite map_size_insert_Some by done. lia.
    - rewrite map_size_insert_None by done. lia. }
  intros n name blob Hn Hb Hlast.
  rewrite foldl_insert_lookup.
  assert (entries !! n = Some (name, blob)) as Hentry.
  { unfold entries. by apply lookup_zip_with_Some; eauto. }
  assert (length entries = length designs) as Hel.
  { unfold entries. rewrite length_zip. lia. }
  destruct (list_find _ (reverse entries)) as [[k [k' v]]|] eqn:F; last first.
  { apply list_find_None in F. rewrite Forall_forall in F.
    exfalso. apply (F (name, blob)); [|done].
    apply elem_of_reverse. by eapply list_elem_of_lookup_2. }
  apply list_find_Some in F as (Hk & Hname & Hmin). cbn in Hname. subst k'.
  cbn. f_equal.
  assert (k < length entries) as Hklt.
  { apply lookup_lt_Some in Hk. by rewrite length_reverse in Hk. }
  rewrite reverse_lookup in Hk by done.
  set (m := length entries - S k) in *.
  destruct (decide (m = n)) as [->|Hne]; [by rewrite Hentry in Hk; simplify_eq|].
  exfalso. destruct (decide (n < m)) as [Hlt|Hge].
  - apply (Hlast m Hlt). rewrite <- Hfst, list_lookup_fmap, Hk. done.
  - assert (m < n) as Hmn by lia.
    assert (n < length entries) as Hnlt by (by eapply lookup_lt_Some).
    apply (Hmin (length entries - S n) (name, blob)); [|lia|done].
    rewrite reverse_lookup by lia.
    replace (length entries - S (length entries - S n)) with n by lia. done.
Qed.

End ArchiveFacts.

(** ** Background removal across the wire *)

Section SplitFacts.

Lemma split_nonempty sep s : Wire.split sep s ≠ [].
Proof.
  destruct s as [|c s]; cbn; [done|].
  destruct (Ascii.eqb c sep); [done|]. by destruct (Wire.split sep s).
Qed.

(** A text with no separator is one piece. *)
Lemma split_whole sep s :
  sep ∉ Text.bytes s -> Wire.split sep s = [s].
Proof.
  unfold Text.bytes. induction s as [|c s IH]; [done|]. cbn. intros Hs.
  destruct (Ascii.eqb c sep) eqn:E.
  - apply Ascii.eqb_eq in E as ->. exfalso. apply Hs, list_elem_of_here.
  - rewrite IH; [done|]. intros H. by apply Hs, list_elem_of_further.
Qed.

(** The piece after the first separator, when what comes before and
    after holds none. *)
Lemma split_second sep s1 s2 :
  sep ∉ Text.bytes s1 -> sep ∉ Text.bytes s2 ->
  Wire.split sep (s1 +:+ String sep s2) = [s1; s2].
Proof.
  unfold Text.bytes. intros H1 H2. induction s1 as [|c s1 IH].
  - change (EmptyString +:+ String sep s2) with (String sep s2).
    cbn [Wire.split]. rewrite Ascii.eqb_refl. by rewrite split_whole.
  - change (String c s1 +:+ String sep s2) with (String c (s1 +:+ String sep s2)).
    cbn [Wire.split]. cbn in H1.
    destruct (Ascii.eqb c sep) eqn:E.
    + apply Ascii.eqb_eq in E as ->. exfalso. apply H1, list_elem_of_here.
    + rewrite IH; [done|]. intros H. by apply H1, list_elem_of_further.
Qed.

End SplitFacts.

Section ServerFacts.

Context {World Buffer : Type}.
Variable fromBase64 : string -> Buffer.
Variable toBase64 : Buffer -> string.
Variable clipdrop : string -> Buffer -> World -> (Thrown + Wire.Upstream Buffer) * World.
Variable nullAccess : Thrown.

Implicit Types (req : Wire.Request) (key : option string) (w : World).

(** X15.  Every answer of the handler is either an image or an error,
    never both and never neither, and it is an image exactly when the
    status is 200. *)
Theorem reply_is_image_or_error req key w code body w' :
  Wire.handler fromBase64 toBase64 clipdrop nullAccess req key w
  = (Wire.Responded code body, w') ->
  (is_Some (Wire.imageBase64 body) <-> code = 200)
  /\ (is_Some (Wire.error body) <-> code ≠ 200).
Proof.
  assert (forall m, is_Some (Wire.imageBase64 (Wire.errorBody m)) <-> False) as Hi.
  { intros m. split; [by intros [? ?]|done]. }
  assert (forall m, is_Some (Wire.error (Wire.errorBody m)) <-> True) as He.
  { intros m. split; [done|]. intros _. by eexists. }
  assert (forall c m, c ≠ 200 ->
            (is_Some (Wire.imageBase64 (Wire.errorBody m)) <-> c = 200)
            /\ (is_Some (Wire.error (Wire.errorBody m)) <-> c ≠ 200)) as Herror.
  { intros c m Hc. rewrite Hi, He. by split. }
  unfold Wire.handler, Wire.internalError.
  destruct (negb (String.eqb (Wire.method req) "POST"));
    [intros ?; simplify_eq; by apply Herror|].
  destruct (Wire.payload req) as [imageUrl|]; [|done].
  destruct (negb (Wire.present key));
    [intros ?; simplify_eq; by apply Herror|].
  destruct (negb (Wire.present imageUrl));
    [intros ?; simplify_eq; by apply Herror|].
  destruct (Wire.dataUrlToBuffer _ _) as [thrown|buffer];
    [intros ?; simplify_eq; by apply Herror|].
  destruct (clipdrop _ buffer w) as [[thrown|response] w1];
    [intros ?; simplify_eq; by apply Herror|].
  destruct (negb (Wire.ok (Wire.upstreamCode response))) eqn:Hok.
  - assert (Wire.upstreamCode response ≠ 200) as Hne.
    { intros H200. rewrite H200 in Hok. done. }
    destruct (Wire.upstreamJson response);
      intros ?; simplify_eq; by apply Herror.
  - destruct (Wire.arrayBuffer response) as [thrown|buffer'];
      intros ?; simplify_eq.
    + by apply Herror.
    + cbn. split; split; done.
Qed.

(** X16.  The handler contacts the background-removal service, and can
    answer with an image, only for a POST request, with the key configured
    on the server, carrying an image URL that has something after its first
    comma.  In every other case it answers (or fails on a missing payload)
    without touching the outside world. *)
Theorem handler_refuses_early req key w :
  ~ (Wire.method req = "POST"
     /\ Wire.present key = true
     /\ exists imageUrl base64,
          Wire.payload req = Some (Some imageUrl)
          /\ Wire.split ","%char imageUrl !! 1 = Some base64
          /\ base64 ≠ EmptyString) ->
  (Wire.handler fromBase64 toBase64 clipdrop nullAccess req key w).2 = w
  /\ (Wire.handler fromBase64 toBase64 clipdrop nullAccess req key w).1
     ∈ [Wire.Responded 405 (Wire.errorBody "Method Not Allowed");
        Wire.Unhandled;
        Wire.Responded 500
          (Wire.errorBody "Clipdrop API key not configured on the server.");
        Wire.Responded 400 (Wire.errorBody "imageUrl is required");
        Wire.Responded 500 (Wire.errorBody "Invalid data URL")].
Proof.
  intros Hbad. unfold Wire.handler, Wire.internalError.
  destruct (String.eqb (Wire.method req) "POST") eqn:Em; cbn [negb];
    [|split; [done|set_solver]].
  apply String.eqb_eq in Em.
  destruct (Wire.payload req) as [imageUrl|] eqn:Ep; [|split; [done|set_solver]].
  destruct (Wire.present key) eqn:Ek; cbn [negb]; [|split; [done|set_solver]].
  destruct (Wire.present imageUrl) eqn:Eu; cbn [negb];
    [|split; [done|set_solver]].
  destruct imageUrl as [imageUrl|]; [|done].
  change (default EmptyString (Some imageUrl)) with imageUrl.
  unfold Wire.dataUrlToBuffer.
  destruct (Wire.split "," imageUrl !! 1) as [base64|] eqn:Es;
    [|cbn; split; [done|set_solver]].
  destruct (JS.truthy base64) eqn:Et; [|cbn; split; [done|set_solver]].
  destruct Hbad. split; [done|]. split; [done|].
  exists imageUrl, base64. by rewrite truthy_nonempty in Et.
Qed.

(** X17.  The image URL the service module builds from a generated image
    is read back by the handler as that image: for a POST with the key
    configured, the bytes sent to the background-removal service are the
    decoding of the very base-64 text the URL was built from, and when the
    service answers with an image the reply is its base-64 encoding. *)
Theorem generated_image_reaches_service (imageBase64 k : string) w response w1 buffer :
  imageBase64 ≠ EmptyString ->
  ","%char ∉ Text.bytes imageBase64 ->
  k ≠ EmptyString ->
  clipdrop k (fromBase64 imageBase64) w = (inr response, w1) ->
  Wire.ok (Wire.upstreamCode response) = true ->
  Wire.arrayBuffer response = inr buffer ->
  Wire.dataUrlToBuffer fromBase64 (Wire.imageDataUrl imageBase64)
  = inr (fromBase64 imageBase64)
  /\ Wire.handler fromBase64 toBase64 clipdrop nullAccess
       {| Wire.method := "POST";
          Wire.payload := Some (Some (Wire.imageDataUrl imageBase64)) |}
       (Some k) w
     = (Wire.Responded 200 (Wire.imageBody (toBase64 buffer)), w1).
Proof.
  intros Hne Hcomma Hk Hcall Hok Hbuf.
  apply truthy_nonempty in Hne. apply truthy_nonempty in Hk.
  assert (Wire.dataUrlToBuffer fromBase64 (Wire.imageDataUrl imageBase64)
          = inr (fromBase64 imageBase64)) as Hparse.
  { unfold Wire.dataUrlToBuffer, Wire.imageDataUrl.
    change ("data:image/png;base64," +:+ imageBase64)
      with ("data:image/png;base64" +:+ String ","%char imageBase64).
    rewrite split_second; [cbn; by rewrite Hne| |done].
    cbn. intros H. repeat (apply elem_of_cons in H as [H|H]; [discriminate|]).
    by apply elem_of_nil in H. }
  split; [done|].
  unfold Wire.handler. cbn [Wire.method Wire.payload].
  change (String.eqb "POST" "POST") with true.
  change (Wire.present (Some k)) with (JS.truthy k).
  change (Wire.present (Some (Wire.imageDataUrl imageBase64))) with true.
  change (default EmptyString (Some k)) with k.
  change (default EmptyString (Some (Wire.imageDataUrl imageBase64)))
    with (Wire.imageDataUrl imageBase64).
  rewrite Hk. cbn [negb]. rewrite Hparse, Hcall, Hok. cbn [negb].
  by rewrite Hbuf.
Qed.

(** X18.  What becomes of a refusal of the background-removal service
    (an answer with a status outside 200..299) depends on its body.  When
    the body is a JSON value other than [null], the refusal is passed on
    with its status, and with its [error] text when it has a non-empty one
    and the text [Failed to remove background.] otherwise.  When the body
    is not JSON, it is passed on with its status and the text [Unknown
    Clipdrop API error].  When the body is the JSON [null], the status of
    the refusal is lost: the answer is 500 with the message of the
    [TypeError]. *)
Theorem upstream_refusal_is_passed_on req key w response w1 :
  Wire.method req = "POST" -> Wire.present key = true ->
  (exists imageUrl buffer,
     Wire.payload req = Some (Some imageUrl) /\ imageUrl ≠ EmptyString
     /\ Wire.dataUrlToBuffer fromBase64 imageUrl = inr buffer
     /\ clipdrop (default EmptyString key) buffer w = (inr response, w1)) ->
  Wire.ok (Wire.upstreamCode response) = false ->
  exists code text,
    Wire.handler fromBase64 toBase64 clipdrop nullAccess req key w
    = (Wire.Responded code (Wire.errorBody text), w1)
    /\ (forall e, Wire.upstreamJson response = Wire.ValueJson e ->
          code = Wire.upstreamCode response
          /\ (forall t, e = Some t -> t ≠ EmptyString -> text = t)
          /\ (e = None \/ e = Some EmptyString ->
              text = "Failed to remove background."))
    /\ (Wire.upstreamJson response = Wire.NotJson ->
        code = Wire.upstreamCode response
        /\ text = "Unknown Clipdrop API error")
    /\ (Wire.upstreamJson response = Wire.NullJson ->
        code = 500
        /\ text = match nullAccess with
                  | ErrorObject m => m
                  | OtherValue => "An internal server error occurred."
                  end).
Proof.
  intros Hm Hk (imageUrl & buffer & Hp & Hne & Hparse & Hcall) Hok.
  unfold Wire.handler. rewrite Hm, Hp, Hk.
  change (String.eqb "POST" "POST") with true.
  change (Wire.present (Some imageUrl)) with (JS.truthy imageUrl).
  change (default EmptyString (Some imageUrl)) with imageUrl.
  apply truthy_nonempty in Hne. rewrite Hne. cbn [negb].
  rewrite Hparse, Hcall, Hok. cbn [negb].
  destruct (Wire.upstreamJson response) as [| |e]; unfold Wire.internalError;
    eexists _, _; (split; [reflexivity|]); (split; [|split]); try done.
  intros e' He'. injection He' as <-. split; [done|]. split.
  - intros t -> Ht. apply truthy_nonempty in Ht. cbn. by rewrite Ht.
  - by intros [->| ->].
Qed.

End ServerFacts.

Section ClientFacts.

Context {World Blob Fetched : Type}.
Variable post : string -> Wire.Request -> World -> (Thrown + Wire.HttpResponse) * World.
Variable fetch : string -> World -> (Thrown + Fetched) * World.
Variable blobOf : Fetched -> World -> (Thrown + Blob) * World.
Variable nullAccess : string -> Thrown.

(** X19.  [handleApiResponse] hands back a body only for a status between
    200 and 299, and then what [response.json()] settles to, as it is (a
    rejection of [json()] is passed on as well).  For any other status it
    throws, whatever the body: an [Error] with the [error] text of the
    body when the body is a JSON value with a non-empty one, with a text
    naming the status when the value has none, and with a fixed text when
    the body is not JSON; the message of such an [Error] is never empty.
    When the body is the JSON [null] what is thrown is the [TypeError] of
    reading [error] off [null]. *)
Theorem handleApiResponse_outcome (response : Wire.HttpResponse) :
  (forall data, Wire.handleApiResponse nullAccess response = inr data ->
     Wire.ok (Wire.code response) = true /\ Wire.parsed response = inr data)
  /\ (Wire.ok (Wire.code response) = true ->
      Wire.handleApiResponse nullAccess response = Wire.parsed response)
  /\ (Wire.ok (Wire.code response) = false ->
      exists thrown,
        Wire.handleApiResponse nullAccess response = inl thrown
        /\ (forall body text,
              Wire.parsed response = inr (Some body) ->
              Wire.error body = Some text -> text ≠ EmptyString ->
              thrown = ErrorObject text)
        /\ (forall body,
              Wire.parsed response = inr (Some body) ->
              Wire.error body = None \/ Wire.error body = Some EmptyString ->
              thrown = ErrorObject ("Request failed with status "
                                    +:+ pretty (Wire.code response)))
        /\ (forall rejection,
              Wire.parsed response = inl rejection ->
              thrown = ErrorObject "An unknown server error occurred")
        /\ (Wire.parsed response = inr None -> thrown = nullAccess "error")
        /\ (Wire.parsed response ≠ inr None ->
            exists m, thrown = ErrorObject m /\ m ≠ EmptyString)).
Proof.
  unfold Wire.handleApiResponse. split; [|split].
  - intros data. destruct (Wire.ok (Wire.code response)); [done|]. cbn [negb].
    by destruct (Wire.parsed response) as [?|[?|]].
  - by intros ->.
  - intros ->. cbn [negb].
    assert (forall n : nat, "Request failed with status " +:+ pretty n ≠ EmptyString)
      as Hfallback by done.
    destruct (Wire.parsed response) as [rejection|[body|]];
      eexists; (split; [reflexivity|]); repeat split; try done.
    + exists "An unknown server error occurred". by split.
    + intros body' text ? Herr Hne. simplify_eq. apply truthy_nonempty in Hne.
      unfold Wire.orElse. by rewrite Herr, Hne.
    + intros body' ? [Herr|Herr]; simplify_eq; unfold Wire.orElse;
        by rewrite Herr.
    + intros _. eexists. split; [reflexivity|]. unfold Wire.orElse.
      destruct (Wire.error body) as [text|]; [|apply Hfallback].
      destruct (JS.truthy text) eqn:E; [by apply truthy_nonempty|apply Hfallback].
Qed.

End ClientFacts.

Section EndToEnd.

Context {World Blob Fetched : Type}.
Variable api : Api World Blob.
Variable post : string -> Wire.Request -> World -> (Thrown + Wire.HttpResponse) * World.
Variable fetch : string -> World -> (Thrown + Fetched) * World.
Variable blobOf : Fetched -> World -> (Thrown + Blob) * World.
Variable nullAccess : string -> Thrown.

(** X20.  An error of the server reaches the user as the server worded
    it.  When the application removes backgrounds through the service
    module, and the endpoint answers a status outside 200..299 with an
    [error] text, the banner shows that text as an error, and the store
    and the rest of the component state are left as they were. *)
Theorem server_error_reaches_user i (w : World) (s : AppState) d code body text w1 :
  removeBackground api = Wire.removeBackground post fetch blobOf nullAccess ->
  find i (generatedDesigns s) = Some d ->
  bgRemoved d = false ->
  post "/api/clipdrop"
    {| Wire.method := "POST"; Wire.payload := Some (Some (imageUrl d)) |} w
  = (inr {| Wire.code := code; Wire.parsed := inr (Some body) |}, w1) ->
  Wire.ok code = false ->
  Wire.error body = Some text -> text ≠ EmptyString ->
  handle api (RemoveBackground i) w s
  = (inr tt, w1,
     {| ideaPrompt := ideaPrompt s; generatedDesigns := generatedDesigns s;
        isLoading := isLoading s; loadingMessage := loadingMessage s;
        message := Some {| text := text; isError := true |} |}).
Proof.
  intros Hapi Hf Hflag Hpost Hok Herr Hne.
  cbn [handle]. task_unfold. rewrite Hf, Hflag, Hapi.
  unfold Wire.removeBackground. rewrite Hpost.
  unfold Wire.handleApiResponse. cbn [Wire.code Wire.parsed].
  rewrite Hok. cbn [negb]. unfold Wire.orElse. rewrite Herr.
  apply truthy_nonempty in Hne. by rewrite Hne.
Qed.

End EndToEnd.

(** ** The model endpoint *)

Ltac pick_status :=
  repeat first [apply list_elem_of_here | apply list_elem_of_further].

Section GeminiFacts.

Context {World Json : Type}.
Variable parse : string -> Thrown + Json.
Variable generateContent : string -> Gemini.ModelCall -> World
                           -> (Thrown + Gemini.ModelResponse) * World.
Variable typeError : string -> Thrown.

Implicit Types (req : Gemini.Request) (key : option string) (w : World).

(** X21.  The model is called, and an answer with status 200 given, only
    for an acceptable request: a POST, with the key configured, for one of
    the seven actions, carrying the input that action needs.  Any other
    request is answered (or fails on a missing body) without touching the
    outside world. *)
Theorem model_is_called_for_acceptable_requests_only req key w :
  ~ Gemini.acceptable req key ->
  (Gemini.handler parse generateContent typeError req key w).2 = w
  /\ forall body,
       (Gemini.handler parse generateContent typeError req key w).1
       ≠ Gemini.Responded 200 body.
Proof.
  intros Hbad. unfold Gemini.handler, Gemini.handleError.
  destruct (String.eqb (Gemini.method req) "POST") eqn:Em; cbn [negb]; [|done].
  apply String.eqb_eq in Em.
  destruct (Wire.present key) eqn:Ek; cbn [negb]; [|done].
  destruct (Gemini.body req) as [b|] eqn:Eb; [|done].
  destruct (Gemini.action b) as [a|] eqn:Ea; [|done].
  assert (forall need, Gemini.requiredInput a = Some need ->
            match need with
            | None => True
            | Some field =>
                exists p, Gemini.payload b = Some p
                          /\ Wire.present (field p) = true
            end -> False) as Hreq.
  { intros need Hneed Hfield. apply Hbad. split; [done|]. split; [done|].
    by exists b, a, need. }
  unfold Gemini.requiredInput in Hreq.
  destruct (String.eqb a "suggestIdea");
    [destruct (Hreq None eq_refl I)|].
  destruct (String.eqb a "generateMetadataAndPrompt").
  { destruct (Gemini.payload b) as [p|]; [|done].
    destruct (Wire.present (Gemini.userIdea p)) eqn:E; cbn [negb]; [|done].
    destruct (Hreq _ eq_refl). eauto. }
  destruct (String.eqb a "generateImageFromPrompt").
  { destruct (Gemini.payload b) as [p|]; [|done].
    destruct (Wire.present (Gemini.prompt p)) eqn:E; cbn [negb]; [|done].
    destruct (Hreq _ eq_refl). eauto. }
  destruct (String.eqb a "analyzeImageForInspiration").
  { destruct (Gemini.payload b) as [p|]; [|done].
    destruct (Wire.present (Gemini.base64ImageData p)) eqn:E; cbn [negb]; [|done].
    destruct (Hreq _ eq_refl). eauto. }
  destruct (String.eqb a "analyzeImageForPrint").
  { destruct (Gemini.payload b) as [p|]; [|done].
    destruct (Wire.present (Gemini.base64ImageData p)) eqn:E; cbn [negb]; [|done].
    destruct (Hreq _ eq_refl). eauto. }
  destruct (String.eqb a "getNicheResearch");
    [destruct (Hreq None eq_refl I)|].
  destruct (String.eqb a "upscaleImage"); [|done].
  destruct (Gemini.payload b) as [p|]; [|done].
  destruct (Wire.present (Gemini.base64ImageData p)) eqn:E; cbn [negb]; [|done].
  destruct (Hreq _ eq_refl). eauto.
Qed.

(** A model call answers with the error of the [catch] block or with what
    is made of the response. *)
Lemma calling_cases k call
    (respond : Gemini.ModelResponse -> Gemini.Reply (Json := Json)) w code body w' :
  Gemini.calling generateContent k call respond w = (Gemini.Responded code body, w') ->
  (code = 500 /\ exists m, body = Gemini.ErrorBody m)
  \/ exists response,
       generateContent k call w = (inr response, w')
       /\ respond response = Gemini.Responded code body.
Proof.
  unfold Gemini.calling, Gemini.handleError.
  destruct (generateContent k call w) as [[thrown|response] w1]; intros H.
  - left. simplify_eq. split; [done|]. by eexists.
  - right. exists response. by simplify_eq.
Qed.

(** X22.  Whatever the request and whatever the model does, an answer of
    the handler that is an error has status 400, 405 or 500, and every
    other answer has status 200.  An answer with status 200 holds a text,
    an image or a parsed value, with one exception: the answer to
    [getNicheResearch] is the text of the response of the model as it is,
    so it is the empty object when that response has no text.  No other
    action answers 200 with nothing. *)
Theorem replies_are_well_shaped req key w code body w' :
  Gemini.handler parse generateContent typeError req key w
  = (Gemini.Responded code body, w') ->
  match body with
  | Gemini.ErrorBody _ => code ∈ [400; 405; 500]
  | _ => code = 200
  end
  /\ (code = 200 -> Gemini.carriesResult body = false ->
      body = Gemini.TextBody None
      /\ (exists b, Gemini.body req = Some b
                    /\ Gemini.action b = Some "getNicheResearch")
      /\ exists response,
           generateContent (default EmptyString key) Gemini.AskNiche w
           = (inr response, w')
           /\ Gemini.text response = None).
Proof.
  set (shaped := fun (c : nat) (b0 : Gemini.Body (Json := Json)) =>
         match b0 with
         | Gemini.ErrorBody _ => c ∈ [400; 405; 500]
         | _ => c = 200
         end
         /\ (c = 200 -> Gemini.carriesResult b0 = false ->
             b0 = Gemini.TextBody None
             /\ (exists b, Gemini.body req = Some b
                           /\ Gemini.action b = Some "getNicheResearch")
             /\ exists response,
                  generateContent (default EmptyString key) Gemini.AskNiche w
                  = (inr response, w')
                  /\ Gemini.text response = None)).
  change (Gemini.handler parse generateContent typeError req key w
          = (Gemini.Responded code body, w') -> shaped code body).
  assert (forall c m, c ∈ [400; 405; 500] -> shaped c (Gemini.ErrorBody m))
    as Herror.
  { intros c m Hc. split; [done|]. intros ->.
    repeat (apply elem_of_cons in Hc as [Hc|Hc]; [discriminate|]).
    by apply elem_of_nil in Hc. }
  assert (forall b0, Gemini.carriesResult b0 = true -> shaped 200 b0) as Hresult.
  { intros b0 Hb. split; [by destruct b0 as [?|[?|]|?|?]|]. intros _ Hno. congruence. }
  unfold Gemini.handler.
  destruct (negb (String.eqb (Gemini.method req) "POST"));
    [intros ?; simplify_eq; apply Herror; pick_status|].
  destruct (negb (Wire.present key));
    [intros ?; simplify_eq; apply Herror; pick_status|].
  destruct (Gemini.body req) as [b|] eqn:Eb; [|done].
  destruct (Gemini.action b) as [a|] eqn:Ea;
    [|intros ?; simplify_eq; apply Herror; pick_status].
  assert (forall response c b0,
            Gemini.parsedReply parse response = Gemini.Responded c b0 ->
            (c = 500 /\ exists m, b0 = Gemini.ErrorBody m)
            \/ (c = 200 /\ Gemini.carriesResult b0 = true)) as Hparsed.
  { intros response c b0. unfold Gemini.parsedReply, Gemini.handleError.
    destruct (parse _); intros ?; simplify_eq; [left|right]; split; eauto. }
  assert (forall m response c b0,
            match Gemini.imageData response with
            | Some data => Gemini.Responded 200 (Gemini.ImageBody data)
            | None => Gemini.handleError (ErrorObject m)
            end = Gemini.Responded (Json := Json) c b0 ->
            (c = 500 /\ exists m, b0 = Gemini.ErrorBody m)
            \/ (c = 200 /\ Gemini.carriesResult b0 = true)) as Himage.
  { intros m response c b0. unfold Gemini.handleError.
    destruct (Gemini.imageData response); intros ?; simplify_eq;
      [right|left]; split; eauto. }
  assert ((code = 500 /\ exists m, body = Gemini.ErrorBody m)
          \/ (code = 200 /\ Gemini.carriesResult body = true) ->
          shaped code body) as Heither.
  { intros [[-> [m ->]]|[-> Hb]]; [apply Herror; pick_status|by apply Hresult]. }
  destruct (String.eqb a "suggestIdea").
  { intros H. apply calling_cases in H as [H|(response & _ & H)];
      [by apply Heither; left|].
    apply Heither. unfold Gemini.handleError in H.
    destruct (Gemini.text response); simplify_eq; [right|left]; split; eauto. }
  destruct (String.eqb a "generateMetadataAndPrompt").
  { destruct (Gemini.payload b) as [p|];
      [|unfold Gemini.handleError; intros ?; simplify_eq; apply Herror;
        pick_status].
    destruct (negb _); [intros ?; simplify_eq; apply Herror; pick_status|].
    intros H. apply calling_cases in H as [H|(response & _ & H)];
      apply Heither; [by left|by eapply Hparsed]. }
  destruct (String.eqb a "generateImageFromPrompt").
  { destruct (Gemini.payload b) as [p|];
      [|unfold Gemini.handleError; intros ?; simplify_eq; apply Herror;
        pick_status].
    destruct (negb _); [intros ?; simplify_eq; apply Herror; pick_status|].
    intros H. apply calling_cases in H as [H|(response & _ & H)];
      apply Heither; [by left|by eapply Himage]. }
  destruct (String.eqb a "analyzeImageForInspiration").
  { destruct (Gemini.payload b) as [p|];
      [|unfold Gemini.handleError; intros ?; simplify_eq; apply Herror;
        pick_status].
    destruct (negb _); [intros ?; simplify_eq; apply Herror; pick_status|].
    intros H. apply calling_cases in H as [H|(response & _ & H)];
      apply Heither; [by left|by eapply Hparsed]. }
  destruct (String.eqb a "analyzeImageForPrint").
  { destruct (Gemini.payload b) as [p|];
      [|unfold Gemini.handleError; intros ?; simplify_eq; apply Herror;
        pick_status].
    destruct (negb _); [intros ?; simplify_eq; apply Herror; pick_status|].
    intros H. apply calling_cases in H as [H|(response & _ & H)];
      apply Heither; [by left|by eapply Hparsed]. }
  destruct (String.eqb a "getNicheResearch") eqn:Eniche.
  { apply String.eqb_eq in Eniche as ->.
    intros H. apply calling_cases in H as [H|(response & Hcall & H)];
      [by apply Heither; left|].
    simplify_eq. destruct (Gemini.text response) as [t|] eqn:Et;
      [by apply Hresult|].
    split; [done|]. intros _ _. split; [done|]. split; [by exists b|].
    by exists response. }
  destruct (String.eqb a "upscaleImage").
  { destruct (Gemini.payload b) as [p|];
      [|unfold Gemini.handleError; intros ?; simplify_eq; apply Herror;
        pick_status].
    destruct (negb _); [intros ?; simplify_eq; apply Herror; pick_status|].
    intros H. apply calling_cases in H as [H|(response & _ & H)];
      apply Heither; [by left|by eapply Himage]. }
  intros ?; simplify_eq; apply Herror; pick_status.
Qed.

(** The data of the first part that has inline data decides. *)
Lemma imageData_first (response : Gemini.ModelResponse) before p after :
  Gemini.parts response = Some (before ++ p :: after) ->
  Forall (fun q => Gemini.inlineData q = None) before ->
  is_Some (Gemini.inlineData p) ->
  Gemini.imageData response =
  match Gemini.inlineData p with
  | Some (Some data) => if JS.truthy data then Some data else None
  | _ => None
  end.
Proof.
  intros Hparts Hbefore Hp. unfold Gemini.imageData. rewrite Hparts.
  assert (List.find (fun q => bool_decide (is_Some (Gemini.inlineData q)))
            (before ++ p :: after) = Some p) as ->; [|done].
  clear Hparts. induction Hbefore as [|q before Hq _ IH]; cbn.
  - rewrite bool_decide_eq_true_2; done.
  - rewrite bool_decide_eq_false_2; [done|]. rewrite Hq. by intros [? ?].
Qed.

(** X23.  For an image request the first part of the answer that has
    inline data decides alone: any parts without inline data before it are
    skipped, its data is the image sent back with status 200, and when it
    has no data the answer is the error 500, whatever the later parts
    hold. *)
Theorem first_image_part_decides k pr w response w1 before p after req :
  k ≠ EmptyString -> pr ≠ EmptyString ->
  req = {| Gemini.method := "POST";
           Gemini.body :=
             Some {| Gemini.action := Some "generateImageFromPrompt";
                     Gemini.payload :=
                       Some {| Gemini.userIdea := None; Gemini.prompt := Some pr;
                               Gemini.base64ImageData := None;
                               Gemini.mimeType := None;
                               Gemini.width := None; Gemini.height := None |} |} |} ->
  generateContent k (Gemini.AskImage pr) w = (inr response, w1) ->
  Gemini.parts response = Some (before ++ p :: after) ->
  Forall (fun q => Gemini.inlineData q = None) before ->
  is_Some (Gemini.inlineData p) ->
  Gemini.handler parse generateContent typeError req (Some k) w
  = (match Gemini.inlineData p with
     | Some (Some data) =>
         if JS.truthy data then Gemini.Responded 200 (Gemini.ImageBody data)
         else Gemini.Responded 500
                (Gemini.ErrorBody "Could not find image data in Gemini response.")
     | _ => Gemini.Responded 500
              (Gemini.ErrorBody "Could not find image data in Gemini response.")
     end, w1).
Proof.
  intros Hk Hpr -> Hcall Hparts Hbefore Hp.
  apply truthy_nonempty in Hk. apply truthy_nonempty in Hpr.
  unfold Gemini.handler. cbn [Gemini.method Gemini.body Gemini.action Gemini.payload
                              Gemini.prompt].
  change (String.eqb "POST" "POST") with true.
  change (Wire.present (Some k)) with (JS.truthy k).
  change (Wire.present (Some pr)) with (JS.truthy pr).
  change (default EmptyString (Some k)) with k.
  change (default EmptyString (Some pr)) with pr.
  rewrite Hk, Hpr. cbn [negb].
  change (String.eqb "generateImageFromPrompt" "suggestIdea") with false.
  change (String.eqb "generateImageFromPrompt" "generateMetadataAndPrompt") with false.
  change (String.eqb "generateImageFromPrompt" "generateImageFromPrompt") with true.
  cbv iota. unfold Gemini.calling. rewrite Hcall.
  rewrite (imageData_first response before p after Hparts Hbefore Hp).
  destruct (Gemini.inlineData p) as [[data|]|]; [|done|done].
  by destruct (JS.truthy data).
Qed.

Lemma removeQuotes_bytes s :
  ("034"%char ∉ Text.bytes (Gemini.removeQuotes s))
  /\ ("034"%char ∉ Text.bytes s -> Gemini.removeQuotes s = s).
Proof.
  unfold Text.bytes. induction s as [|c s [IH1 IH2]]; [split; [apply not_elem_of_nil|done]|].
  cbn. destruct (Ascii.eqb c "034") eqn:E.
  - split; [done|]. apply Ascii.eqb_eq in E as ->. intros H.
    destruct H. apply list_elem_of_here.
  - split.
    + cbn. intros H. apply elem_of_cons in H as [<-|H]; [|done].
      by rewrite Ascii.eqb_refl in E.
    + intros H. rewrite IH2; [done|]. intros H'. by apply H, list_elem_of_further.
Qed.

(** X24.  A suggested idea leaves the server trimmed and without any
    double quote; a suggestion that had none is sent as the model wrote it,
    trimmed. *)
Theorem suggested_idea_has_no_quotes k w response w1 t req :
  k ≠ EmptyString ->
  req = {| Gemini.method := "POST";
           Gemini.body := Some {| Gemini.action := Some "suggestIdea";
                                  Gemini.payload := None |} |} ->
  generateContent k Gemini.AskIdea w = (inr response, w1) ->
  Gemini.text response = Some t ->
  exists idea,
    Gemini.handler parse generateContent typeError req (Some k) w
    = (Gemini.Responded 200 (Gemini.TextBody (Some idea)), w1)
    /\ ("034"%char ∉ Text.bytes idea)
    /\ ("034"%char ∉ Text.bytes t -> idea = JS.trim t).
Proof.
  intros Hk -> Hcall Ht. apply truthy_nonempty in Hk.
  exists (Gemini.removeQuotes (JS.trim t)).
  destruct (removeQuotes_bytes (JS.trim t)) as [H1 H2].
  split; [|split; [done|]].
  - unfold Gemini.handler. cbn [Gemini.method Gemini.body Gemini.action].
    change (String.eqb "POST" "POST") with true.
    change (Wire.present (Some k)) with (JS.truthy k).
    change (default EmptyString (Some k)) with k.
    rewrite Hk. cbn [negb].
    change (String.eqb "suggestIdea" "suggestIdea") with true. cbv iota.
    unfold Gemini.calling. by rewrite Hcall, Ht.
  - intros Hq. apply H2. intros Hin. by apply Hq, trim_bytes.
Qed.

End GeminiFacts.

(** ** Concrete runs of the further properties *)

Module MoreRuns.

Import Script Script2.

Lemma parseIdeas_clean_witness :
  "a dog" ∈ parseIdeas (ideaPrompt batch)
  /\ JS.trim "a dog" = "a dog".
Proof.
  assert ("a dog" ∈ parseIdeas (ideaPrompt batch)) as Hin.
  { vm_compute. apply list_elem_of_further, list_elem_of_further, list_elem_of_here. }
  split; [exact Hin|].
  exact (proj1 (proj2 (parseIdeas_clean (ideaPrompt batch) "a dog" Hin))).
Defined.

Lemma suggestion_appends_ideas_witness :
  suggest "a fox" 0 = (inr "a fox", 1)
  /\ exists s',
       handleSuggestIdea (suggest "a fox") 0 (state "a cat" []) = (inr tt, 1, s')
       /\ parseIdeas (ideaPrompt s')
          = parseIdeas (ideaPrompt (state "a cat" [])) ++ parseIdeas "a fox"
       /\ generatedDesigns s' = generatedDesigns (state "a cat" [])
       /\ message s' = message (state "a cat" [])
       /\ isLoading s' = false.
Proof.
  split; [reflexivity|].
  apply (suggestion_appends_ideas (suggest "a fox") 0 (state "a cat" []) "a fox" 1).
  - reflexivity.
  - discriminate.
Defined.

Lemma suggestion_failure_is_reported_witness :
  suggest "" 0 = (inr "", 1)
  /\ exists s',
       handleSuggestIdea (suggest "") 0 (state "a cat" []) = (inr tt, 1, s')
       /\ ideaPrompt s' = ideaPrompt (state "a cat" [])
       /\ generatedDesigns s' = generatedDesigns (state "a cat" [])
       /\ isLoading s' = false
       /\ message s' = Some {| text := "Received an empty idea."; isError := true |}.
Proof.
  split; [reflexivity|].
  apply (suggestion_failure_is_reported (suggest "") 0 (state "a cat" [])
           (inr "") 1).
  - reflexivity.
  - intros idea H. by injection H as <-.
Defined.

Lemma loading_indicator_is_cleared_witness :
  handleGenerateFromIdea (api cutout true) "broken" 0
    {| ideaPrompt := ""; generatedDesigns := []; isLoading := true;
       loadingMessage := ""; message := None |}
  = (inr tt, 0,
     {| ideaPrompt := ""; generatedDesigns := []; isLoading := false;
        loadingMessage := "Generating: " +:+ JS.dquote +:+ "broken" +:+ JS.dquote;
        message := Some {| text := "Failed to generate design for " +:+ JS.dquote
                                   +:+ "broken" +:+ JS.dquote +:+ ". See console.";
                           isError := true |} |})
  /\ isLoading
       {| ideaPrompt := ""; generatedDesigns := []; isLoading := false;
          loadingMessage := "Generating: " +:+ JS.dquote +:+ "broken" +:+ JS.dquote;
          message := Some {| text := "Failed to generate design for " +:+ JS.dquote
                                     +:+ "broken" +:+ JS.dquote +:+ ". See console.";
                             isError := true |} |} = false.
Proof.
  assert (handleGenerateFromIdea (api cutout true) "broken" 0
            {| ideaPrompt := ""; generatedDesigns := []; isLoading := true;
               loadingMessage := ""; message := None |}
          = (inr tt, 0,
             {| ideaPrompt := ""; generatedDesigns := []; isLoading := false;
                loadingMessage := "Generating: " +:+ JS.dquote +:+ "broken"
                                  +:+ JS.dquote;
                message := Some {| text := "Failed to generate design for "
                                           +:+ JS.dquote +:+ "broken" +:+ JS.dquote
                                           +:+ ". See console.";
                                   isError := true |} |})) as Hrun by reflexivity.
  split; [exact Hrun|].
  exact (proj1 (loading_indicator_is_cleared (api cutout true) 0 _) "broken" _ _ Hrun).
Defined.

Lemma transform_failure_message_witness :
  find "d0" (generatedDesigns store2) = Some design0
  /\ transformAttempt (wired outOfCredits) (removeBackground (wired outOfCredits))
       (imageUrl design0) 0 = (inl (ErrorObject "Out of credits"), 1)
  /\ message (handle (wired outOfCredits) (RemoveBackground "d0") 0 store2).2
     = Some {| text := "Out of credits"; isError := true |}.
Proof.
  split; [reflexivity|]. split; [reflexivity|].
  rewrite (transform_failure_message (wired outOfCredits) true "d0" 0 store2 design0
             (ErrorObject "Out of credits") 1); reflexivity.
Defined.

Lemma transform_success_frame_witness :
  find "d0" (generatedDesigns store2) = Some design0
  /\ transformAttempt (api cutout true) (upscaleImage (api cutout true))
       (imageUrl design0) 0 = (inr "data:image/png;base64,AAAA+2x", 0)
  /\ exists s' n,
       handle (api cutout true) (Upscale "d0") 0 store2 = (inr tt, 0, s')
       /\ generatedDesigns store2 !! n = Some design0
       /\ message s'
          = Some {| text := "Design #" +:+ pretty (Z.of_nat n + 1)%Z +:+ " upscaled!";
                    isError := false |}.
Proof.
  split; [reflexivity|]. split; [reflexivity|].
  destruct (transform_success_frame (api cutout true) false "d0" 0 store2 design0
              "data:image/png;base64,AAAA+2x" 0 eq_refl eq_refl eq_refl)
    as (s' & n & Hrun & _ & Hn & _ & Hm).
  exists s', n. split; [exact Hrun|]. split; [exact Hn|exact Hm].
Defined.

Lemma revert_undoes_transforms_witness :
  NoDup (id <$> generatedDesigns store2)
  /\ pristine design0
  /\ exists w1 s1 d1 w2 s2,
       handleAll (api cutout true) [RemoveBackground "d0"; Upscale "d1"] 0 store2
       = (inr tt, w1, s1)
       /\ generatedDesigns s1 !! 0 = Some d1
       /\ handleRevert "d0" w1 s1 = (inr tt, w2, s2)
       /\ (imageUrl d1 ≠ originalImageUrl d1 ->
           generatedDesigns s2 !! 0 = Some design0).
Proof.
  assert (pristine design0) as Hp by (by repeat split).
  split; [exact Runs.noDup_store2|]. split; [exact Hp|].
  apply (revert_undoes_transforms (api cutout true)
           [RemoveBackground "d0"; Upscale "d1"] "d0" 0 store2 design0 0).
  - exact Runs.noDup_store2.
  - reflexivity.
  - reflexivity.
  - exact Hp.
  - by repeat constructor.
Defined.

Lemma bulk_batch_is_fresh_witness :
  parseIdeas (ideaPrompt batch) ≠ []
  /\ exists s',
       handleBulkGeneration (api cutout true) 0 batch = (inr tt, 2, s')
       /\ (originalIdea <$> generatedDesigns s') `sublist_of` parseIdeas (ideaPrompt batch)
       /\ length (generatedDesigns s') <= length (parseIdeas (ideaPrompt batch))
       /\ Forall pristine (generatedDesigns s').
Proof.
  assert (parseIdeas (ideaPrompt batch) ≠ []) as Hne by (vm_compute; discriminate).
  split; [exact Hne|].
  eexists. split; [vm_compute; reflexivity|].
  eapply (bulk_batch_is_fresh (api cutout true) 0 batch 2); [|exact Hne].
  vm_compute. reflexivity.
Defined.

Lemma untitled_entries_are_distinct_witness :
  DirectService.slug (Title (metadata (untitled "x"))) = EmptyString
  /\ Files.archiveEntry (untitled "x") 0 ≠ Files.archiveEntry (untitled "y") 4.
Proof.
  split; [reflexivity|].
  apply (untitled_entries_are_distinct (untitled "x") (untitled "y") 0 4);
    [reflexivity|reflexivity|lia].
Defined.

Lemma sheet_points_at_archive_witness :
  exists row name,
    DirectService.data shelf.*2 !! 2 = Some row
    /\ entryNames shelf !! 2 = Some name
    /\ cell "Image Path" row = Some ("C:\Downloads\" +:+ name).
Proof.
  eexists.
  destruct (sheet_points_at_archive shelf 2 _ eq_refl) as (name & Hn & Hc).
  exists name. split; [reflexivity|]. split; [exact Hn|exact Hc].
Defined.

Lemma pack_entries_witness :
  pack fetch blobOf shelf 0 = (inr shelfArchive, 3)
  /\ shelfArchive !! "a_cat.png" = Some "blob of data:image/png;base64,BBBB"
  /\ size shelfArchive <= length shelf.
Proof.
  assert (pack fetch blobOf shelf 0 = (inr shelfArchive, 3)) as Hrun.
  { vm_compute. reflexivity. }
  split; [exact Hrun|].
  destruct (pack_entries fetch blobOf shelf 0 shelfArchive 3 Hrun)
    as (blobs & Hfetch & _ & _ & Hsize & Hlast).
  split; [|exact Hsize].
  apply (Hlast 1 "a_cat.png" "blob of data:image/png;base64,BBBB").
  - reflexivity.
  - vm_compute in Hfetch. by injection Hfetch as <-.
  - intros [|[|[|m]]] Hm; try lia; discriminate.
Defined.

Lemma reply_is_image_or_error_witness :
  Wire.handler identity identity outOfCredits (ErrorObject "null")
    (request "data:image/png;base64,AAAA") (Some "key") 0
  = (Wire.Responded 402 (Wire.errorBody "Out of credits"), 1)
  /\ (is_Some (Wire.imageBase64 (Wire.errorBody "Out of credits")) <-> 402 = 200)
  /\ (is_Some (Wire.error (Wire.errorBody "Out of credits")) <-> 402 ≠ 200).
Proof.
  split; [reflexivity|].
  apply (reply_is_image_or_error identity identity outOfCredits (ErrorObject "null")
           (request "data:image/png;base64,AAAA") (Some "key") 0 402 _ 1).
  reflexivity.
Defined.

Lemma handler_refuses_early_witness :
  (Wire.handler identity identity working (ErrorObject "null")
     (request "no comma here") (Some "key") 0).2 = 0
  /\ (Wire.handler identity identity working (ErrorObject "null")
        (request "no comma here") (Some "key") 0).1
     = Wire.Responded 500 (Wire.errorBody "Invalid data URL").
Proof.
  split; [|reflexivity].
  apply (handler_refuses_early identity identity working (ErrorObject "null")
           (request "no comma here") (Some "key") 0).
  intros (_ & _ & imageUrl & base64 & Hp & Hs & _).
  injection Hp as <-. discriminate.
Defined.

Lemma generated_image_reaches_service_witness :
  working "key" (identity "QUJD") 0
  = (inr {| Wire.upstreamCode := 200; Wire.upstreamJson := Wire.NotJson;
            Wire.arrayBuffer := inr "DJUQ" |}, 1)
  /\ Wire.handler identity identity working (ErrorObject "null")
       (request (Wire.imageDataUrl "QUJD")) (Some "key") 0
     = (Wire.Responded 200 (Wire.imageBody (identity "DJUQ")), 1).
Proof.
  split; [reflexivity|].
  refine (proj2 (generated_image_reaches_service identity identity working
                   (ErrorObject "null") "QUJD" "key" 0 _ 1 "DJUQ" _ _ _ _ _ _)).
  - discriminate.
  - cbn. intros H. repeat (apply elem_of_cons in H as [H|H]; [discriminate|]).
    by apply elem_of_nil in H.
  - discriminate.
  - reflexivity.
  - reflexivity.
  - reflexivity.
Defined.

Lemma upstream_refusal_is_passed_on_witness :
  Wire.ok 402 = false
  /\ Wire.handler identity identity outOfCredits (ErrorObject "null")
       (request "data:image/png;base64,AAAA") (Some "key") 0
     = (Wire.Responded 402 (Wire.errorBody "Out of credits"), 1).
Proof.
  split; [reflexivity|].
  destruct (upstream_refusal_is_passed_on identity identity outOfCredits
              (ErrorObject "null") (request "data:image/png;base64,AAAA")
              (Some "key") 0
              {| Wire.upstreamCode := 402;
                 Wire.upstreamJson := Wire.ValueJson (Some "Out of credits");
                 Wire.arrayBuffer := inl OtherValue |} 1)
    as (code & text & Hrun & Hvalue & _).
  - reflexivity.
  - reflexivity.
  - exists "data:image/png;base64,AAAA", "AAAA". by repeat split.
  - reflexivity.
  - destruct (Hvalue _ eq_refl) as (-> & Htext & _).
    rewrite (Htext "Out of credits" eq_refl) in Hrun; [exact Hrun|discriminate].
Defined.

Lemma handleApiResponse_outcome_witness :
  Wire.ok 404 = false
  /\ Wire.handleApiResponse nullAccess
       {| Wire.code := 404; Wire.parsed := inr (Some (Wire.imageBody "QUJD")) |}
     = inl (ErrorObject "Request failed with status 404")
  /\ Wire.handleApiResponse nullAccess
       {| Wire.code := 404; Wire.parsed := inr None |}
     = inl (nullAccess "error").
Proof.
  split; [reflexivity|]. split.
  - destruct (proj2 (proj2 (handleApiResponse_outcome nullAccess
                 {| Wire.code := 404;
                    Wire.parsed := inr (Some (Wire.imageBody "QUJD")) |})) eq_refl)
      as (thrown & Hrun & _ & Hstatus & _).
    rewrite Hrun. f_equal. apply (Hstatus (Wire.imageBody "QUJD")); [reflexivity|].
    by left.
  - destruct (proj2 (proj2 (handleApiResponse_outcome nullAccess
                 {| Wire.code := 404; Wire.parsed := inr None |})) eq_refl)
      as (thrown & Hrun & _ & _ & _ & Hnull & _).
    rewrite Hrun. f_equal. by apply Hnull.
Defined.

Lemma server_error_reaches_user_witness :
  post outOfCredits "/api/clipdrop" (request (imageUrl design0)) 0
  = (inr {| Wire.code := 402;
            Wire.parsed := inr (Some (Wire.errorBody "Out of credits")) |}, 1)
  /\ handle (wired outOfCredits) (RemoveBackground "d0") 0 store2
     = (inr tt, 1,
        {| ideaPrompt := ideaPrompt store2; generatedDesigns := generatedDesigns store2;
           isLoading := isLoading store2; loadingMessage := loadingMessage store2;
           message := Some {| text := "Out of credits"; isError := true |} |}).
Proof.
  split; [reflexivity|].
  apply (server_error_reaches_user (wired outOfCredits) (post outOfCredits) fetch blobOf
           nullAccess "d0" 0 store2 design0 402 (Wire.errorBody "Out of credits")
           "Out of credits" 1); try reflexivity.
  discriminate.
Defined.

Lemma replies_are_well_shaped_witness :
  Gemini.handler parse silent typeError nicheRequest (Some "key") 0
  = (Gemini.Responded 200 (Gemini.TextBody None), 1)
  /\ Gemini.carriesResult (Json := string) (Gemini.TextBody None) = false
  /\ exists response,
       silent "key" Gemini.AskNiche 0 = (inr response, 1)
       /\ Gemini.text response = None.
Proof.
  split; [reflexivity|]. split; [reflexivity|].
  destruct (replies_are_well_shaped parse silent typeError nicheRequest
              (Some "key") 0 200 (Gemini.TextBody None) 1 eq_refl)
    as (_ & Hempty).
  destruct (Hempty eq_refl eq_refl) as (_ & _ & Hmodel). exact Hmodel.
Defined.

Lemma model_is_called_for_acceptable_requests_only_witness :
  (Gemini.handler parse model typeError strangeRequest (Some "key") 0).2 = 0
  /\ (Gemini.handler parse model typeError strangeRequest (Some "key") 0).1
     = Gemini.Responded 400 (Gemini.ErrorBody "Invalid action specified.").
Proof.
  split; [|reflexivity].
  apply (model_is_called_for_acceptable_requests_only parse model typeError
           strangeRequest (Some "key") 0).
  intros (_ & _ & b & a & need & Hb & Ha & Hneed & _).
  injection Hb as <-. injection Ha as <-. discriminate.
Defined.

Lemma first_image_part_decides_witness :
  model "key" (Gemini.AskImage "a fox") 0
  = (inr {| Gemini.text := None;
            Gemini.parts :=
              Some ([ {| Gemini.inlineData := None |} ]
                    ++ {| Gemini.inlineData := Some (Some "QUJD") |}
                    :: [ {| Gemini.inlineData := Some (Some "REVG") |} ]) |}, 1)
  /\ Gemini.handler parse model typeError (imageRequest "a fox") (Some "key") 0
     = (Gemini.Responded 200 (Gemini.ImageBody "QUJD"), 1).
Proof.
  split; [reflexivity|].
  refine (first_image_part_decides parse model typeError "key" "a fox" 0
            {| Gemini.text := None;
               Gemini.parts :=
                 Some ([ {| Gemini.inlineData := None |} ]
                       ++ {| Gemini.inlineData := Some (Some "QUJD") |}
                       :: [ {| Gemini.inlineData := Some (Some "REVG") |} ]) |} 1
            [ {| Gemini.inlineData := None |} ]
            {| Gemini.inlineData := Some (Some "QUJD") |}
            [ {| Gemini.inlineData := Some (Some "REVG") |} ]
            (imageRequest "a fox") _ _ _ _ _ _ _).
  - discriminate.
  - discriminate.
  - reflexivity.
  - reflexivity.
  - reflexivity.
  - by repeat constructor.
  - by eexists.
Defined.

Lemma suggested_idea_has_no_quotes_witness :
  model "key" Gemini.AskIdea 0
  = (inr {| Gemini.text := Some (" " +:+ JS.dquote +:+ "a fox" +:+ JS.dquote);
            Gemini.parts := None |}, 1)
  /\ exists idea,
       Gemini.handler parse model typeError ideaRequest (Some "key") 0
       = (Gemini.Responded 200 (Gemini.TextBody (Some idea)), 1)
       /\ ("034"%char ∉ Text.bytes idea).
Proof.
  split; [reflexivity|].
  destruct (suggested_idea_has_no_quotes parse model typeError "key" 0
              {| Gemini.text := Some (" " +:+ JS.dquote +:+ "a fox" +:+ JS.dquote);
                 Gemini.parts := None |} 1
              (" " +:+ JS.dquote +:+ "a fox" +:+ JS.dquote) ideaRequest)
    as (idea & Hrun & Hq & _); try reflexivity; [discriminate|].
  exists idea. by split.
Defined.

End MoreRuns.
